(** * Table extraction heuristics of the upload route

    A shallow embedding of [extractTableData] from
    [src/app/api/upload/route.ts]: the PDF branch (header detection over the
    first five lines, tolerant row extraction, word-count fallback) and the
    plain-text/TSV branch (single delimiter choice, exact-count rows),
    together with the parts of JavaScript they rest on: strings as sequences
    of UTF-16 code units, [trim], [includes], [split] with a string and with
    the two regular expressions used, plain objects as ordered property
    stores, and [Map] as an insertion-ordered association list. *)

From Stdlib Require Import String Ascii DecimalString DecimalNat.
From Stdlib Require Import Bool Arith ZArith NArith Lia List.
Import ListNotations.

Set Implicit Arguments.

(* ================================================================== *)
(** ** JavaScript strings *)

Module JS.

(** A string is its sequence of UTF-16 code units. *)
Definition codeunit := N.
Definition jsstring := list codeunit.

Definition js (s : string) : jsstring :=
  map N_of_ascii (list_ascii_of_string s).

Definition TAB : codeunit := 9%N.
Definition LF : codeunit := 10%N.
Definition SPACE : codeunit := 32%N.
Definition COMMA : codeunit := 44%N.
Definition SEMICOLON : codeunit := 59%N.

Definition str_eqb (a b : jsstring) : bool :=
  if list_eq_dec N.eq_dec a b then true else false.

(** [WhiteSpace] and [LineTerminator] of ECMAScript: what [\s] matches and
    what [String.prototype.trim] strips. *)
Definition is_ws (c : codeunit) : bool :=
  ((9 <=? c) && (c <=? 13) || (c =? 32) || (c =? 160) || (c =? 5760)
   || (8192 <=? c) && (c <=? 8202) || (c =? 8232) || (c =? 8233)
   || (c =? 8239) || (c =? 8287) || (c =? 12288) || (c =? 65279))%N.

Fixpoint dropWhile (p : codeunit -> bool) (s : jsstring) : jsstring :=
  match s with
  | [] => []
  | c :: s' => if p c then dropWhile p s' else s
  end.

(** [s.trim()] *)
Definition trim (s : jsstring) : jsstring :=
  rev (dropWhile is_ws (rev (dropWhile is_ws s))).

Definition is_empty (s : jsstring) : bool :=
  match s with [] => true | _ => false end.

(** [s.includes(c)] for a one-unit needle. *)
Definition includes1 (c : codeunit) (s : jsstring) : bool :=
  existsb (N.eqb c) s.

(** [s.includes(c1 c2)] for a two-unit needle. *)
Fixpoint includes2 (c1 c2 : codeunit) (s : jsstring) : bool :=
  match s with
  | x :: ((y :: _) as s') =>
      ((x =? c1) && (y =? c2))%N || includes2 c1 c2 s'
  | _ => false
  end.

(** Prepend a code unit to the first token of a token list. *)
Definition cons_hd (c : codeunit) (ts : list jsstring) : list jsstring :=
  match ts with
  | [] => [[c]]
  | t :: ts' => (c :: t) :: ts'
  end.

(** [s.split(c)] with a one-unit string separator: every occurrence
    separates, the empty string gives one empty token. *)
Fixpoint split_on (c : codeunit) (s : jsstring) : list jsstring :=
  match s with
  | [] => [[]]
  | x :: s' =>
      if (x =? c)%N then [] :: split_on c s'
      else cons_hd x (split_on c s')
  end.

(** Length of the whitespace run at the start of [s]. *)
Fixpoint ws_run (s : jsstring) : nat :=
  match s with
  | [] => 0
  | c :: s' => if is_ws c then S (ws_run s') else 0
  end.

(** [s.split(/\s{k,}/)] for [k >= 1].  The matcher is tried at each
    position from the end of the last match; it is greedy, so a match
    consumes the whole run ([skipping] is true while inside a matched run).
    A run shorter than [k] stays inside the token.  The token before a
    match and the token after the last match are always pushed, empty or
    not. *)
Fixpoint split_runs (k : nat) (skipping : bool) (s : jsstring)
  : list jsstring :=
  match s with
  | [] => [[]]
  | c :: s' =>
      if skipping && is_ws c then split_runs k true s'
      else if is_ws c && (k <=? ws_run s)%nat then [] :: split_runs k true s'
      else cons_hd c (split_runs k false s')
  end.

(** [s.split(/\s{2,}/)] *)
Definition split_ws2 (s : jsstring) : list jsstring := split_runs 2 false s.

(** [s.split(/\s+/)] *)
Definition split_ws1 (s : jsstring) : list jsstring := split_runs 1 false s.

(** The same split as the standard words it, walking two positions: [p],
    the end of the last match, and [q], the position tried next.  [tok]
    holds the units from [p] to [q] in reverse, [s] the units from [q] on.
    A match at [q] of [\s{k,}] is the whole whitespace run there, if it has
    at least [k] units; each step consumes a unit, so [length s] steps
    suffice. *)
Fixpoint splitLoop (k : nat) (fuel : nat) (tok s : jsstring)
  : list jsstring :=
  match fuel with
  | 0 => [rev tok]
  | S fuel' =>
      match s with
      | [] => [rev tok]
      | c :: s' =>
          if (k <=? ws_run s)%nat
          then rev tok :: splitLoop k fuel' [] (skipn (ws_run s) s)
          else splitLoop k fuel' (c :: tok) s'
      end
  end.

Definition regexSplit (k : nat) (s : jsstring) : list jsstring :=
  splitLoop k (length s) [] s.

(** Decimal rendering of a number inside a template literal. *)
Definition decimal (n : nat) : jsstring :=
  js (NilEmpty.string_of_uint (Nat.to_uint n)).

(** *** Plain objects used as rows

    A row is a fresh object literal filled by assignments [row[k] = v] with
    string values.  Own properties are kept in creation order; assigning an
    existing key overwrites its value in place.  Assigning the key
    [__proto__] a string goes to the inherited setter, which ignores a
    value that is neither an object nor null: no own property appears. *)

Definition Row := list (jsstring * jsstring).

Definition proto_key : jsstring := js "__proto__".

Fixpoint hasProp (k : jsstring) (r : Row) : bool :=
  match r with
  | [] => false
  | (k', _) :: r' => str_eqb k k' || hasProp k r'
  end.

Fixpoint replaceProp (k v : jsstring) (r : Row) : Row :=
  match r with
  | [] => []
  | (k', v') :: r' =>
      if str_eqb k k' then (k', v) :: r' else (k', v') :: replaceProp k v r'
  end.

(** [r[k] = v] *)
Definition rowSet (r : Row) (k v : jsstring) : Row :=
  if str_eqb k proto_key then r
  else if hasProp k r then replaceProp k v r
  else r ++ [(k, v)].

(** A key is an array index when it is the canonical decimal form of an
    integer below [2^32 - 1]. *)
Definition digit_val (c : codeunit) : option N :=
  if ((48 <=? c) && (c <=? 57))%N then Some (c - 48)%N else None.

Fixpoint parse_digits (acc : N) (s : jsstring) : option N :=
  match s with
  | [] => Some acc
  | c :: s' =>
      match digit_val c with
      | Some d => parse_digits (10 * acc + d)%N s'
      | None => None
      end
  end.

Definition array_index (k : jsstring) : option N :=
  match k with
  | [] => None
  | [c] => digit_val c
  | c :: _ =>
      if (c =? 48)%N then None
      else match parse_digits 0%N k with
           | Some n => if (n <? 4294967295)%N then Some n else None
           | None => None
           end
  end.

Fixpoint insert_index (x : N * jsstring) (l : list (N * jsstring))
  : list (N * jsstring) :=
  match l with
  | [] => [x]
  | y :: l' => if (fst x <=? fst y)%N then x :: l else y :: insert_index x l'
  end.

Definition index_keys (ks : list jsstring) : list (N * jsstring) :=
  fold_right
    (fun k acc =>
       match array_index k with
       | Some n => insert_index (n, k) acc
       | None => acc
       end) [] ks.

Definition name_keys (ks : list jsstring) : list jsstring :=
  filter (fun k => match array_index k with Some _ => false | None => true end)
         ks.

(** Own property keys in enumeration order: array indices ascending, then
    the other keys in creation order. *)
Definition order_keys (ks : list jsstring) : list jsstring :=
  map snd (index_keys ks) ++ name_keys ks.

(** [Object.keys(r)] *)
Definition Object_keys (r : Row) : list jsstring := order_keys (map fst r).

(** *** [Map<number, number>]: entries in insertion order *)

Definition NumMap := list (nat * nat).

Fixpoint mapGet (m : NumMap) (k : nat) : option nat :=
  match m with
  | [] => None
  | (k', v) :: m' => if (k =? k')%nat then Some v else mapGet m' k
  end.

Fixpoint mapHas (m : NumMap) (k : nat) : bool :=
  match m with
  | [] => false
  | (k', _) :: m' => (k =? k')%nat || mapHas m' k
  end.

Fixpoint mapReplace (m : NumMap) (k v : nat) : NumMap :=
  match m with
  | [] => []
  | (k', v') :: m' =>
      if (k =? k')%nat then (k', v) :: m' else (k', v') :: mapReplace m' k v
  end.

(** [m.set(k, v)] *)
Definition mapSet (m : NumMap) (k v : nat) : NumMap :=
  if mapHas m k then mapReplace m k v else m ++ [(k, v)].

(** *** Exceptions: a computation returns or throws *)

Inductive Thrown := Exception (message : string).

Definition Try (A : Type) := sum Thrown A.

Definition tryBind {A B : Type} (c : Try A) (f : A -> Try B) : Try B :=
  match c with
  | inl e => inl e
  | inr a => f a
  end.

(** [try { body } catch (error) { handler }] *)
Definition tryCatch {A : Type} (body : Try A) (handler : Thrown -> A) : A :=
  match body with
  | inl e => handler e
  | inr a => a
  end.

End JS.

Import JS.

(** [text.split('\n').filter(line => line.trim() !== '')] *)
Definition nonBlankLines (text : jsstring) : list jsstring :=
  filter (fun line => negb (is_empty (trim line))) (split_on LF text).

(** [.map(h => h.trim()).filter(h => h !== '')] *)
Definition trimDropEmpty (ts : list jsstring) : list jsstring :=
  filter (fun h => negb (is_empty h)) (map trim ts).

(* ================================================================== *)
(** ** The PDF branch *)

Module Pdf.

Inductive Delimiter := space | comma | tab.

(** The loop state of the header search. *)
Record Best := mkBest {
  bestHeaderLine : nat;
  bestDelimiter : Delimiter;
  bestHeaderCount : nat
}.

Definition initBest : Best := mkBest 0 space 0.

(** The guard of each attempt: [line.includes('  ')], [line.includes(',')],
    [line.includes('\t')]. *)
Definition hasDelimiter (d : Delimiter) (line : jsstring) : bool :=
  match d with
  | space => includes2 SPACE SPACE line
  | comma => includes1 COMMA line
  | tab => includes1 TAB line
  end.

(** [/\s{2,}/], [','] or ['\t'] given to [split]. *)
Definition splitBy (d : Delimiter) (line : jsstring) : list jsstring :=
  match d with
  | space => split_ws2 line
  | comma => split_on COMMA line
  | tab => split_on TAB line
  end.

(** The header tokens of a line under a delimiter: in the search loop and
    again for the chosen line, all three delimiters trim and drop empty
    tokens. *)
Definition headerTokens (d : Delimiter) (line : jsstring) : list jsstring :=
  trimDropEmpty (splitBy d line).

(** One [if (line.includes(..)) { .. if (.. > bestHeaderCount) .. }]. *)
Definition tryDelimiter (i : nat) (line : jsstring) (d : Delimiter)
  (b : Best) : Best :=
  if hasDelimiter d line then
    let n := length (headerTokens d line) in
    if (bestHeaderCount b <? n)%nat then mkBest i d n else b
  else b.

(** The body of the [for] loop: space, then comma, then tab. *)
Definition scanLine (i : nat) (line : jsstring) (b : Best) : Best :=
  tryDelimiter i line tab
    (tryDelimiter i line comma
       (tryDelimiter i line space b)).

Fixpoint scanLines (i : nat) (ls : list jsstring) (b : Best) : Best :=
  match ls with
  | [] => b
  | line :: ls' => scanLines (S i) ls' (scanLine i line b)
  end.

(** [lines.slice(0, Math.min(5, lines.length))] *)
Definition potentialHeaderLines (lines : list jsstring) : list jsstring :=
  firstn (Nat.min 5 (length lines)) lines.

Definition detectHeader (lines : list jsstring) : Best :=
  scanLines 0 (potentialHeaderLines lines) initBest.

(** The tokens of a data line: only the space split drops empty tokens. *)
Definition dataTokens (d : Delimiter) (dataLine : jsstring)
  : list jsstring :=
  match d with
  | space => trimDropEmpty (split_ws2 dataLine)
  | comma => map trim (split_on COMMA dataLine)
  | tab => map trim (split_on TAB dataLine)
  end.

(** [values.length >= Math.max(2, headers.length - 1) &&
     values.length <= headers.length + 1] *)
Definition accepts (headers values : list jsstring) : bool :=
  ((Z.max 2 (Z.of_nat (length headers) - 1) <=? Z.of_nat (length values))
   && (Z.of_nat (length values) <=? Z.of_nat (length headers) + 1))%Z.

(** [for (j = 0; j < Math.min(headers.length, values.length); j++)
       row[headers[j]] = values[j]] *)
Definition buildRow (headers values : list jsstring) : Row :=
  fold_left (fun row j => rowSet row (nth j headers []) (nth j values []))
            (seq 0 (Nat.min (length headers) (length values))) [].

(** The body of the data loop: the row pushed for a line, if any. *)
Definition rowOfLine (d : Delimiter) (headers : list jsstring)
  (dataLine : jsstring) : option Row :=
  let values := dataTokens d dataLine in
  if accepts headers values then Some (buildRow headers values) else None.

Definition push {A : Type} (rows : list A) (o : option A) : list A :=
  match o with
  | Some row => rows ++ [row]
  | None => rows
  end.

(** [for (i = bestHeaderLine + 1; i < lines.length; i++)] *)
Definition dataRows (d : Delimiter) (headers : list jsstring)
  (bestLine : nat) (lines : list jsstring) : list Row :=
  fold_left (fun rows dataLine => push rows (rowOfLine d headers dataLine))
            (skipn (S bestLine) lines) [].

(** The headers of approach 1, once [bestHeaderCount >= 2]. *)
Definition chosenHeaders (lines : list jsstring) : list jsstring :=
  let b := detectHeader lines in
  headerTokens (bestDelimiter b) (nth (bestHeaderLine b) lines []).

(** Approach 1: [Some rows] when it returns, [None] when control falls
    through to approach 2. *)
Definition approach1 (lines : list jsstring) : option (list Row) :=
  let b := detectHeader lines in
  if (2 <=? bestHeaderCount b)%nat then
    let rows :=
      dataRows (bestDelimiter b) (chosenHeaders lines) (bestHeaderLine b)
               lines in
    if (0 <? length rows)%nat then Some rows else None
  else None.

(** [line.split(/\s+/).length] *)
Definition wordCountOf (line : jsstring) : nat := length (split_ws1 line).

(** [wordCountMap.get(wordCount) || 0] *)
Definition getOr0 (m : NumMap) (k : nat) : nat :=
  match mapGet m k with
  | Some v => v
  | None => 0
  end.

(** The first [lines.forEach]: the histogram of word counts. *)
Definition wordCountMap (lines : list jsstring) : NumMap :=
  fold_left (fun m line =>
               let wordCount := wordCountOf line in
               mapSet m wordCount (getOr0 m wordCount + 1))
            lines [].

(** [wordCountMap.forEach]: the state is
    [(mostCommonWordCount, highestFrequency)]. *)
Definition pickStep (st : nat * nat) (e : nat * nat) : nat * nat :=
  let '(wordCount, frequency) := e in
  if (snd st <? frequency)%nat && (1 <? wordCount)%nat
  then (wordCount, frequency) else st.

Definition pickMostCommon (m : NumMap) : nat * nat :=
  fold_left pickStep m (0, 0).

(** [Array.from({length: n}, (_, i) => `Column${i+1}`)] *)
Definition genericHeaders (n : nat) : list jsstring :=
  map (fun i => js "Column" ++ decimal (i + 1)) (seq 0 n).

(** [words.forEach((word, index) => row[genericHeaders[index]] = word)] *)
Definition patternRow (headers words : list jsstring) : Row :=
  fold_left (fun row iw => rowSet row (nth (fst iw) headers []) (snd iw))
            (combine (seq 0 (length words)) words) [].

(** The second [lines.forEach]. *)
Definition patternRows (n : nat) (lines : list jsstring) : list Row :=
  fold_left (fun rows line =>
               let words := split_ws1 line in
               push rows (if (length words =? n)%nat
                          then Some (patternRow (genericHeaders n) words)
                          else None))
            lines [].

(** Approach 2: [Some rows] when it returns, [None] when control falls
    through to the final [return []]. *)
Definition approach2 (lines : list jsstring) : option (list Row) :=
  let '(mostCommonWordCount, highestFrequency) :=
    pickMostCommon (wordCountMap lines) in
  if (3 <=? highestFrequency)%nat && (2 <=? mostCommonWordCount)%nat then
    let rows := patternRows mostCommonWordCount lines in
    if (0 <? length rows)%nat then Some rows else None
  else None.

Definition fallback (lines : list jsstring) : list Row :=
  match approach2 lines with
  | Some rows => rows
  | None => []
  end.

Definition extractLines (lines : list jsstring) : list Row :=
  if (1 <? length lines)%nat then
    match approach1 lines with
    | Some rows => rows
    | None => fallback lines
    end
  else [].

(** The branch on the text delivered by the PDF parser. *)
Definition extract (text : jsstring) : list Row :=
  extractLines (nonBlankLines text).

End Pdf.

(* ================================================================== *)
(** ** The plain-text / TSV branch *)

Module Text.

(** [let delimiter: string | RegExp]: one of the three one-unit strings, or
    [/\s+/]. *)
Inductive Delimiter := literal (c : codeunit) | whitespace.

Definition chooseDelimiter (firstLine : jsstring) : Delimiter :=
  if includes1 TAB firstLine then literal TAB
  else if includes1 COMMA firstLine then literal COMMA
  else if includes1 SEMICOLON firstLine then literal SEMICOLON
  else whitespace.

(** The one splitting rule of the branch, for the header and for every data
    line: [typeof delimiter === 'string' ? .split(d).map(trim)
    : .split(d).filter(h => h.trim() !== '')]. *)
Definition tokens (d : Delimiter) (line : jsstring) : list jsstring :=
  match d with
  | literal c => map trim (split_on c line)
  | whitespace =>
      filter (fun h => negb (is_empty (trim h))) (split_ws1 line)
  end.

(** [headers.forEach((header, index) => row[header] = values[index])],
    reached only when both lists have the same length. *)
Definition buildRow (headers values : list jsstring) : Row :=
  fold_left (fun row ih => rowSet row (snd ih) (nth (fst ih) values []))
            (combine (seq 0 (length headers)) headers) [].

Definition rowOfLine (d : Delimiter) (headers : list jsstring)
  (line : jsstring) : option Row :=
  let values := tokens d line in
  if (length values =? length headers)%nat
  then Some (buildRow headers values) else None.

Definition headersOf (lines : list jsstring) : list jsstring :=
  let firstLine := nth 0 lines [] in
  tokens (chooseDelimiter firstLine) firstLine.

Definition extractLines (lines : list jsstring) : list Row :=
  if (1 <? length lines)%nat then
    let firstLine := nth 0 lines [] in
    let delimiter := chooseDelimiter firstLine in
    let headers := tokens delimiter firstLine in
    fold_left
      (fun rows line => Pdf.push rows (rowOfLine delimiter headers line))
      (skipn 1 lines) []
  else [].

Definition extract (content : jsstring) : list Row :=
  extractLines (nonBlankLines content).

End Text.

(* ================================================================== *)
(** ** [extractTableData] and the handler around it *)

(** The two branches of the MIME dispatch that do their own parsing:
    [mimeType.includes('pdf')] and
    [mimeType.includes('text/plain') || mimeType.includes('tsv')]. *)
Inductive Origin := noisy | clean.

(** The [try] body.  [source] is the outcome of the awaited read
    ([pdfParse] for a PDF, [fs.readFile] for a text file): the text, or the
    exception it threw. *)
Definition extractBody (o : Origin) (source : Try jsstring)
  : Try (list Row) :=
  tryBind source (fun text =>
    inr (match o with
         | noisy => Pdf.extract text
         | clean => Text.extract text
         end)).

(** [try { .. } catch (error) { console.error(..); return []; }] *)
Definition extractTableData (o : Origin) (source : Try jsstring)
  : list Row :=
  tryCatch (extractBody o source) (fun _ => []).

(** The answers of [POST]: status 400 with an error, the table with
    [Object.keys] of its first row as headers, or status 500. *)
Inductive Response :=
| BadRequest (error : string)
| Success (tableData : list Row) (headers : list jsstring)
| ServerError (error : string).

Definition noTableMessage : string :=
  "No table data found in the file. Please upload a file containing structured data in a table format.".

Definition respond (tableData : list Row) : Response :=
  match tableData with
  | [] => BadRequest noTableMessage
  | row0 :: _ => Success tableData (Object_keys row0)
  end.

Definition messageOf (e : Thrown) : string :=
  match e with Exception message => message end.

(** [POST]: its own awaited steps around the extraction (reading the form,
    writing and removing the temporary file) are [ownSteps]; whatever they
    throw is answered with status 500. *)
Definition POST (o : Origin) (ownSteps : Try unit) (source : Try jsstring)
  : Response :=
  tryCatch
    (tryBind ownSteps
       (fun _ => inr (respond (extractTableData o source))))
    (fun e => ServerError ("Failed to process the file: " ++ messageOf e)).

(** Lines joined by line feeds, to write inputs. *)
Definition lines_of (ls : list jsstring) : jsstring :=
  concat (map (fun l => l ++ [LF]) ls).

(** Statements read the loops through [filterMap]: the elements a loop
    pushes, in order. *)
Fixpoint filterMap {A B : Type} (f : A -> option B) (l : list A) : list B :=
  match l with
  | [] => []
  | x :: l' =>
      match f x with
      | Some y => y :: filterMap f l'
      | None => filterMap f l'
      end
  end.

(** [assign kvs]: the object after [row[k] = v] for each pair in turn. *)
Definition assign (kvs : list (jsstring * jsstring)) : Row :=
  fold_left (fun row kv => rowSet row (fst kv) (snd kv)) kvs [].

(** The own keys, in creation order, after assigning the keys [ks]. *)
Definition addKey (ks : list jsstring) (k : jsstring) : list jsstring :=
  if str_eqb k proto_key then ks
  else if existsb (str_eqb k) ks then ks
  else ks ++ [k].

Definition assignedKeys (ks : list jsstring) : list jsstring :=
  fold_left addKey ks [].

(** A token [trim] leaves alone. *)
Definition trimmed (t : jsstring) : Prop := trim t = t.

(* ================================================================== *)
(** ** Further string operations *)

Module Str.

(** [s.startsWith(p)] *)
Fixpoint startsWith (p s : jsstring) : bool :=
  match p, s with
  | [], _ => true
  | a :: p', c :: s' => (a =? c)%N && startsWith p' s'
  | _ :: _, [] => false
  end.

(** [s.includes(p)] for any needle. *)
Fixpoint includes (p s : jsstring) : bool :=
  startsWith p s ||
  match s with
  | [] => false
  | _ :: s' => includes p s'
  end.

(** Whether a string is truthy: not empty. *)
Definition truthy (s : jsstring) : bool := negb (is_empty s).

End Str.

(* ================================================================== *)
(** ** The DOCX parser, [src/utils/docxParser.ts] *)

Module Docx.

Definition LT : codeunit := 60%N.
Definition GT : codeunit := 62%N.

(** Under the [i] flag a pattern letter matches its two ASCII cases and
    nothing else; the other pattern characters match themselves. *)
Definition upper (c : codeunit) : codeunit :=
  if ((97 <=? c) && (c <=? 122))%N then (c - 32)%N else c.

Definition eq_ci (a c : codeunit) : bool := (upper a =? upper c)%N.

(** A literal piece of a pattern at the start of [s]: what follows it. *)
Fixpoint prefix_ci (p s : jsstring) : option jsstring :=
  match p, s with
  | [], _ => Some s
  | a :: p', c :: s' => if eq_ci a c then prefix_ci p' s' else None
  | _ :: _, [] => None
  end.

(** [[^>]*>]: everything up to and including the next [>]. *)
Fixpoint afterGt (s : jsstring) : option jsstring :=
  match s with
  | [] => None
  | c :: s' => if (c =? GT)%N then Some s' else afterGt s'
  end.

(** [([\s\S]*?)close]: the shortest body followed by [close], and what
    follows [close]. *)
Fixpoint lazyUntil (close s : jsstring) : option (jsstring * jsstring) :=
  match prefix_ci close s with
  | Some rest => Some ([], rest)
  | None =>
      match s with
      | [] => None
      | c :: s' =>
          match lazyUntil close s' with
          | Some (body, rest) => Some (c :: body, rest)
          | None => None
          end
      end
  end.

(** [<name[^>]*>([\s\S]*?)</name>] at the start of [s]: the captured body
    and what follows the match. *)
Definition matchElement (opener close s : jsstring)
  : option (jsstring * jsstring) :=
  match prefix_ci opener s with
  | Some s1 =>
      match afterGt s1 with
      | Some s2 => lazyUntil close s2
      | None => None
      end
  | None => None
  end.

(** All matches of a global pattern, left to right: the matcher is tried at
    each position from the end of the previous match ([skip] counts the
    units of a match still to pass). *)
Fixpoint scan {A : Type} (m : jsstring -> option (A * jsstring))
  (skip : nat) (s : jsstring) : list A :=
  match s with
  | [] => []
  | _ :: s' =>
      match skip with
      | S k => scan m k s'
      | 0 =>
          match m s with
          | Some (a, rest) => a :: scan m (length s - length rest - 1) s'
          | None => scan m 0 s'
          end
      end
  end.

(** The text of a match: [s] without what follows the match. *)
Definition matched (s rest : jsstring) : jsstring :=
  firstn (length s - length rest) s.

(** [/<table[^>]*>([\s\S]*?)<\/table>/gi] with [html.match]: the matched
    texts. *)
Definition tableMatcher (s : jsstring) : option (jsstring * jsstring) :=
  match matchElement (js "<table") (js "</table>") s with
  | Some (_, rest) => Some (matched s rest, rest)
  | None => None
  end.

(** [/<tr[^>]*>([\s\S]*?)<\/tr>/gi] with [tableHtml.match]. *)
Definition rowMatcher (s : jsstring) : option (jsstring * jsstring) :=
  match matchElement (js "<tr") (js "</tr>") s with
  | Some (_, rest) => Some (matched s rest, rest)
  | None => None
  end.

(** A match of [/<th[^>]*>([\s\S]*?)<\/th>|<td[^>]*>([\s\S]*?)<\/td>/gi]:
    group 1 is set by the first alternative, group 2 by the second. *)
Inductive HeaderMatch :=
| thMatch (group1 : jsstring)
| tdMatch (group2 : jsstring).

Definition headerMatcher (s : jsstring) : option (HeaderMatch * jsstring) :=
  match matchElement (js "<th") (js "</th>") s with
  | Some (body, rest) => Some (thMatch body, rest)
  | None =>
      match matchElement (js "<td") (js "</td>") s with
      | Some (body, rest) => Some (tdMatch body, rest)
      | None => None
      end
  end.

(** [/<td[^>]*>([\s\S]*?)<\/td>/gi] with [matchAll]: group 1. *)
Definition cellMatcher (s : jsstring) : option (jsstring * jsstring) :=
  matchElement (js "<td") (js "</td>") s.

(** [content.replace(/<[^>]*>/g, '')]: a [<] with a [>] somewhere after it
    opens a match that ends at the first such [>]. *)
Fixpoint stripTags (inTag : bool) (s : jsstring) : jsstring :=
  match s with
  | [] => []
  | c :: s' =>
      if inTag then
        if (c =? GT)%N then stripTags false s' else stripTags true s'
      else if (c =? LT)%N && includes1 GT s' then stripTags true s'
      else c :: stripTags false s'
  end.

(** [content.replace(/<[^>]*>/g, '').trim()] *)
Definition clean (content : jsstring) : jsstring :=
  trim (stripTags false content).

Definition undefinedReplace : Thrown :=
  Exception "Cannot read properties of undefined (reading 'replace')".

(** [const content = match[1] || match[2]; return content.replace(..).trim()].
    An empty group 1 is falsy, and group 2 of a [th] match is undefined. *)
Definition headerOf (m : HeaderMatch) : Try jsstring :=
  match m with
  | thMatch group1 =>
      if Str.truthy group1 then inr (clean group1) else inl undefinedReplace
  | tdMatch group2 => inr (clean group2)
  end.

(** [headerMatches.map(..)]: the first exception ends the map. *)
Fixpoint headersOf (ms : list HeaderMatch) : Try (list jsstring) :=
  match ms with
  | [] => inr []
  | m :: ms' =>
      tryBind (headerOf m) (fun h =>
        tryBind (headersOf ms') (fun hs => inr (h :: hs)))
  end.

(** [cellMatches.forEach((match, index) => row[headers[index]] = clean)],
    reached only when both lists have the same length. *)
Definition buildRow (headers cells : list jsstring) : Row :=
  fold_left (fun row ic => rowSet row (nth (fst ic) headers [])
                                  (clean (snd ic)))
            (combine (seq 0 (length cells)) cells) [].

(** The body of the loop over the data rows. *)
Definition rowOf (headers : list jsstring) (rowHtml : jsstring)
  : option Row :=
  let cellMatches := scan cellMatcher 0 rowHtml in
  if negb (length cellMatches =? length headers)%nat then None
  else Some (buildRow headers cellMatches).

(** The body of the loop over the tables: the rows it adds to [tables]. *)
Definition tableRows (tableHtml : jsstring) : Try (list Row) :=
  let rowMatches := scan rowMatcher 0 tableHtml in
  if (length rowMatches <? 2)%nat then inr []
  else
    let headerMatches := scan headerMatcher 0 (nth 0 rowMatches []) in
    if (length headerMatches =? 0)%nat then inr []
    else
      tryBind (headersOf headerMatches) (fun headers =>
        inr (fold_left (fun rows rowHtml =>
                          Pdf.push rows (rowOf headers rowHtml))
                       (skipn 1 rowMatches) [])).

(** [for (const tableHtml of tableMatches)] *)
Fixpoint tablesLoop (tableMatches : list jsstring) (tables : list Row)
  : Try (list Row) :=
  match tableMatches with
  | [] => inr tables
  | tableHtml :: rest =>
      tryBind (tableRows tableHtml) (fun rows =>
        tablesLoop rest (tables ++ rows))
  end.

(** [extractDocxTables].  [html] is the outcome of reading the file and
    converting it with mammoth: the HTML, or the exception thrown. *)
Definition extractDocxTables (html : Try jsstring) : list Row :=
  tryCatch
    (tryBind html (fun html =>
       tablesLoop (scan tableMatcher 0 html) []))
    (fun _ => []).

End Docx.

(* ================================================================== *)
(** ** The whole route, [src/app/api/upload/route.ts] *)

Module Route.

(** What the file system and the libraries deliver for one request. *)
Record World := mkWorld {
  formFile : Try bool;
    (** [req.formData()], and whether it holds a [file] *)
  saveFile : Try unit;
    (** [fs.mkdir] and [fs.writeFile] of the temporary file *)
  magicType : Try (option jsstring);
    (** [fileType.fileTypeFromFile]: the [mime] of its result, if any *)
  lookupType : Try (option jsstring);
    (** [mime.lookup]: a string, or [false] *)
  unlinkFile : Try unit;
    (** [fs.unlink] of the temporary file *)
  sheetRows : Try (list Row);
    (** [XLSX.readFile] and [sheet_to_json] of the first sheet *)
  csvRows : Try (list Row);
    (** [fs.readFile], [XLSX.read] and [sheet_to_json] *)
  pdfText : Try jsstring;
    (** [fs.readFile] and [pdfParse]: [data.text] *)
  docxHtml : Try jsstring;
    (** [readFile] and [mammoth.convertToHtml]: [result.value] *)
  textContent : Try jsstring
    (** [fs.readFile(filePath, 'utf-8')] *)
}.

Definition detectFileType (w : World) : option jsstring :=
  tryCatch
    (tryBind (magicType w) (fun type =>
       match type with
       | Some mime => inr (Some mime)
       | None =>
           tryBind (lookupType w) (fun mimeType =>
             match mimeType with
             | Some m => if Str.truthy m then inr (Some m) else inr None
             | None => inr None
             end)
       end))
    (fun _ => None).

Definition supportedFormats : list jsstring :=
  [ js "application/vnd.ms-excel";
    js "application/vnd.openxmlformats-officedocument.spreadsheetml.sheet";
    js "application/vnd.ms-excel.sheet.macroEnabled.12";
    js "application/vnd.ms-excel.sheet.binary.macroEnabled.12";
    js "text/csv";
    js "text/comma-separated-values";
    js "text/tab-separated-values";
    js "application/pdf";
    js "application/msword";
    js "application/vnd.openxmlformats-officedocument.wordprocessingml.document";
    js "text/plain" ].

(** [supportedFormats.some(format => mimeType.includes(format))] *)
Definition isSupportedTableFormat (mimeType : jsstring) : bool :=
  existsb (fun format => Str.includes format mimeType) supportedFormats.

(** The [try] body of [extractTableData], branch by branch. *)
Definition extractBody (w : World) (mimeType : jsstring)
  : Try (list Row) :=
  if negb (isSupportedTableFormat mimeType) then inr []
  else if Str.includes (js "spreadsheetml") mimeType
          || Str.includes (js "excel") mimeType
          || Str.includes (js "xlsx") mimeType
          || Str.includes (js "xls") mimeType
  then sheetRows w
  else if Str.includes (js "csv") mimeType then csvRows w
  else if Str.includes (js "pdf") mimeType
  then tryBind (pdfText w) (fun text => inr (Pdf.extract text))
  else if Str.includes (js "docx") mimeType
          || Str.includes (js "word") mimeType
  then inr (Docx.extractDocxTables (docxHtml w))
  else if Str.includes (js "text/plain") mimeType
          || Str.includes (js "tsv") mimeType
  then tryBind (textContent w) (fun content => inr (Text.extract content))
  else inr [].

Definition extractTableData (w : World) (mimeType : jsstring) : list Row :=
  tryCatch (extractBody w mimeType) (fun _ => []).

(** The answers of [POST], with the status and the body fields. *)
Inductive Reply :=
| reply400 (error : string)
| reply200 (fileType : jsstring) (tableData : list Row)
           (headers : list jsstring)
| reply500 (error : string).

Definition noFileMessage : string := "No file uploaded".

Definition unsupportedMessage : string :=
  "This file type is not supported for table extraction. Please upload Excel, CSV, PDF or other tabular documents.".

Definition imageMessage : string :=
  "Image files cannot be used for table extraction. Please upload Excel, CSV, PDF or other tabular documents.".

(** [await detectFileType(tempFilePath) || 'application/octet-stream'] *)
Definition mimeTypeOf (w : World) : jsstring :=
  match detectFileType w with
  | Some m => if Str.truthy m then m else js "application/octet-stream"
  | None => js "application/octet-stream"
  end.

Definition POST (w : World) : Reply :=
  tryCatch
    (tryBind (formFile w) (fun file =>
       if negb file then inr (reply400 noFileMessage)
       else
         tryBind (saveFile w) (fun _ =>
           let mimeType := mimeTypeOf w in
           if negb (isSupportedTableFormat mimeType) then
             tryBind (unlinkFile w) (fun _ =>
               inr (reply400 unsupportedMessage))
           else if Str.startsWith (js "image/") mimeType then
             tryBind (unlinkFile w) (fun _ => inr (reply400 imageMessage))
           else
             let tableData := extractTableData w mimeType in
             tryBind (unlinkFile w) (fun _ =>
               match tableData with
               | [] => inr (reply400 noTableMessage)
               | row0 :: _ =>
                   inr (reply200 mimeType tableData (Object_keys row0))
               end))))
    (fun e => reply500 ("Failed to process the file: " ++ messageOf e)).

End Route.

(* ================================================================== *)
(** ** The page: what it shows of a reply *)

Module Home.

(** [tableData.length === 1 && headers.length > 4] *)
Definition shouldShowSingleForm (tableData : list Row)
  (headers : list jsstring) : bool :=
  (length tableData =? 1)%nat && (4 <? length headers)%nat.




(** What [handleFileUpload] catches.  For an axios error with a response,
    [dataError] is [error.response.data.error] when that is a non-empty
    string and the empty string when the body or its [error] is missing. *)
Inductive Failure :=
| axiosResponse (status : nat) (dataError : string)
| plainError (message : string)
| otherValue.

Definition genericMessage : string :=
  "An error occurred while processing the file".

Definition errorMessage (f : Failure) : string :=
  match f with
  | axiosResponse status dataError =>
      if negb (String.eqb dataError "") then dataError
      else if (status =? 400)%nat then
        "Bad request: The file could not be processed. Please check the file format."
      else if (status =? 413)%nat then
        "The file is too large. Please upload a smaller file."
      else if (status =? 500)%nat then
        "Server error: The server encountered an error while processing the file."
      else genericMessage
  | plainError message => message
  | otherValue => genericMessage
  end.

End Home.

(* ================================================================== *)
(** ** Inputs and predicates used in the statements on the route *)

(** A request for which every source delivers a table. *)
Definition tableWorld : Route.World :=
  Route.mkWorld
    (inr true) (inr tt) (inr None) (inr None) (inr tt)
    (inr [[(js "Sheet", js "1")]])
    (inr [[(js "Csv", js "1")]])
    (inr (lines_of [js "a  b"; js "1  2"]))
    (inr (js "<table><tr><th>A</th></tr><tr><td>1</td></tr></table>"))
    (inr (lines_of [js "a,b"; js "1,2"])).

(** Whether a string still holds a tag: a [<] with a [>] after it. *)
Fixpoint hasTag (s : jsstring) : bool :=
  match s with
  | [] => false
  | c :: s' => ((c =? Docx.LT)%N && includes1 Docx.GT s') || hasTag s'
  end.

(** The data rows a table can give at most: its [tr] matches but the
    first. *)
Definition dataRowCount (tableHtml : jsstring) : nat :=
  length (Docx.scan Docx.rowMatcher 0 tableHtml) - 1.

(* ------------------------------------------------------------------ *)
(** *** Header search: evaluation order *)

Module HeaderOrder.
Import Pdf.

(** The token count a (line, delimiter) pair of the header window offers,
    when its [includes] guard holds. *)
Definition candidate (window : list jsstring) (i : nat) (d : Delimiter)
  : option nat :=
  match nth_error window i with
  | Some line =>
      if hasDelimiter d line then Some (length (headerTokens d line))
      else None
  | None => None
  end.

Definition rank (d : Delimiter) : nat :=
  match d with
  | space => 0
  | comma => 1
  | tab => 2
  end.

(** Position of a pair in the order the loops visit them: all three
    delimiters of line 0, then those of line 1, and so on. *)
Definition visit (i : nat) (d : Delimiter) : nat := 3 * i + rank d.

(** The order as the loops have it: line first, delimiter second. *)
Definition line_then_delimiter (i : nat) (d : Delimiter) (i' : nat)
  (d' : Delimiter) : Prop :=
  i < i' \/ (i = i' /\ rank d <= rank d').

(** The order as the specification words it: delimiter first, line
    second. *)
Definition delimiter_then_line (i : nat) (d : Delimiter) (i' : nat)
  (d' : Delimiter) : Prop :=
  rank d < rank d' \/ (d = d' /\ i <= i').

(** The specification's tie-break, as a property of a line sequence. *)
Definition ties_by_delimiter_first (lines : list jsstring) : Prop :=
  let b := detectHeader lines in
  forall i d,
    candidate (potentialHeaderLines lines) i d = Some (bestHeaderCount b) ->
    delimiter_then_line (bestHeaderLine b) (bestDelimiter b) i d.

(** What the search has established once every pair before position [p]
    has been tried. *)
Definition searched (window : list jsstring) (p : nat) (b : Best) : Prop :=
  (forall i d n, visit i d < p -> candidate window i d = Some n ->
                 n <= bestHeaderCount b) /\
  (0 < bestHeaderCount b ->
   candidate window (bestHeaderLine b) (bestDelimiter b)
     = Some (bestHeaderCount b) /\
   visit (bestHeaderLine b) (bestDelimiter b) < p /\
   forall i d, visit i d < p ->
               candidate window i d = Some (bestHeaderCount b) ->
               visit (bestHeaderLine b) (bestDelimiter b) <= visit i d).

End HeaderOrder.

(* ------------------------------------------------------------------ *)
(** *** Reading the result *)

(** The specification's error rule, as a property of one fault: the caller
    can tell it from the empty result. *)
Definition fault_reported_distinctly (o : Origin) (e : Thrown) : Prop :=
  POST o (inr tt) (inl e) <> BadRequest noTableMessage.

(** The headers behind a returned result: the first line's tokens on the
    clean path; on the noisy path the chosen header line's tokens when
    approach 1 returns, the generic headers otherwise. *)
Definition resultHeaders (o : Origin) (text : jsstring) : list jsstring :=
  let lines := nonBlankLines text in
  match o with
  | clean => Text.headersOf lines
  | noisy =>
      match Pdf.approach1 lines with
      | Some _ => Pdf.chosenHeaders lines
      | None =>
          Pdf.genericHeaders (fst (Pdf.pickMostCommon (Pdf.wordCountMap lines)))
      end
  end.

(** Whether the tolerant extractor of approach 1 produced the result. *)
Definition tolerant (o : Origin) (text : jsstring) : Prop :=
  o = noisy /\ Pdf.approach1 (nonBlankLines text) <> None.

(** The specification's row invariant, as a property of one result. *)
Definition rows_share_keys (rows : list Row) : Prop :=
  forall r1 r2, In r1 rows -> In r2 rows -> Object_keys r1 = Object_keys r2.

(** Number of lines with a given word count. *)
Definition frequency (lines : list jsstring) (c : nat) : nat :=
  length (filter (fun line => (Pdf.wordCountOf line =? c)%nat) lines).

(** The data-line rule as the specification words it: space-run and comma
    splits drop tokens that are empty after trimming, the tab split trims
    and keeps them. *)
Definition specDataTokens (d : Pdf.Delimiter) (dataLine : jsstring)
  : list jsstring :=
  match d with
  | Pdf.space => trimDropEmpty (split_ws2 dataLine)
  | Pdf.comma => trimDropEmpty (split_on COMMA dataLine)
  | Pdf.tab => map trim (split_on TAB dataLine)
  end.

(** The histogram holds, for every word count that occurs, the number of
    lines with that count. *)
Definition counts (lines : list jsstring) (m : NumMap) : Prop :=
  NoDup (map fst m) /\
  forall c, mapGet m c
            = if (frequency lines c =? 0)%nat then None
              else Some (frequency lines c).

(** The delimiter choice as the specification words it: tab if the first
    line has one, else comma, else semicolon, else whitespace. *)
Inductive Chosen (firstLine : jsstring) : Text.Delimiter -> Prop :=
| chosen_tab :
    In TAB firstLine -> Chosen firstLine (Text.literal TAB)
| chosen_comma :
    ~ In TAB firstLine -> In COMMA firstLine ->
    Chosen firstLine (Text.literal COMMA)
| chosen_semicolon :
    ~ In TAB firstLine -> ~ In COMMA firstLine -> In SEMICOLON firstLine ->
    Chosen firstLine (Text.literal SEMICOLON)
| chosen_whitespace :
    ~ In TAB firstLine -> ~ In COMMA firstLine -> ~ In SEMICOLON firstLine ->
    Chosen firstLine Text.whitespace.

(** The specification's header invariant, as a property of one input. *)
Definition headers_never_empty (o : Origin) (text : jsstring) : Prop :=
  ~ In [] (resultHeaders o text).

(** The second scenario of the specification. *)
Definition scenario2 : jsstring :=
  js "a,b,c" ++ [LF] ++ js "1,2" ++ [LF] ++ js "3,4,5,6".

(* ================================================================== *)
(** ** Lemmas on the JavaScript layer *)

Lemma str_eqb_eq (a b : jsstring) : str_eqb a b = true <-> a = b.
Proof.
  unfold str_eqb. destruct (list_eq_dec N.eq_dec a b); split; congruence.
Qed.

Lemma str_eqb_neq (a b : jsstring) : str_eqb a b = false <-> a <> b.
Proof.
  unfold str_eqb. destruct (list_eq_dec N.eq_dec a b); split; congruence.
Qed.

Lemma str_eqb_refl (a : jsstring) : str_eqb a a = true.
Proof. now apply str_eqb_eq. Qed.

Lemma push_fold {A B : Type} (f : A -> option B) (l : list A) (acc : list B) :
  fold_left (fun rows x => Pdf.push rows (f x)) l acc = acc ++ filterMap f l.
Proof.
  revert acc. induction l as [|x l IH]; intros acc; simpl.
  - now rewrite app_nil_r.
  - rewrite IH. destruct (f x); simpl; [now rewrite <- app_assoc | reflexivity].
Qed.

Lemma filterMap_In {A B : Type} (f : A -> option B) (l : list A) (y : B) :
  In y (filterMap f l) <-> exists x, In x l /\ f x = Some y.
Proof.
  induction l as [|a l IH]; simpl.
  - split; [tauto | intros [x [[] _]]].
  - destruct (f a) eqn:E; simpl; rewrite IH; split.
    + intros [<- | [x [Hx Hf]]]; [exists a; auto | exists x; auto].
    + intros [x [[<- | Hx] Hf]]; [left; congruence | right; exists x; auto].
    + intros [x [Hx Hf]]; exists x; auto.
    + intros [x [[<- | Hx] Hf]]; [congruence | exists x; auto].
Qed.

Lemma filterMap_length_filter {A B : Type} (p : A -> bool) (g : A -> B)
  (l : list A) :
  filterMap (fun x => if p x then Some (g x) else None) l
  = map g (filter p l).
Proof.
  induction l as [|a l IH]; simpl; [reflexivity|].
  destruct (p a); simpl; now rewrite IH.
Qed.

(** The structural split agrees with the two-position loop. *)
Lemma split_runs_nonempty (k : nat) (sk : bool) (s : jsstring) :
  split_runs k sk s <> [].
Proof.
  revert sk. induction s as [|c s IH]; intros sk; simpl; [discriminate|].
  destruct (sk && is_ws c); [apply IH|].
  destruct (is_ws c && (k <=? _)%nat); [discriminate|].
  specialize (IH false). destruct (split_runs k false s);
    [contradiction | discriminate].
Qed.

Lemma split_runs_skip (k : nat) (s : jsstring) :
  split_runs k true s = split_runs k false (skipn (ws_run s) s).
Proof.
  induction s as [|c s IH]; simpl; [reflexivity|].
  destruct (is_ws c) eqn:Ec; simpl; [exact IH | now rewrite Ec].
Qed.

Lemma splitLoop_split_runs (k fuel : nat) (tok s : jsstring) :
  1 <= k -> length s <= fuel ->
  splitLoop k fuel tok s
  = match split_runs k false s with
    | [] => [rev tok]
    | t :: ts => (rev tok ++ t) :: ts
    end.
Proof.
  intros Hk. revert tok s.
  induction fuel as [|fuel IH]; intros tok s Hlen.
  - destruct s; [|simpl in Hlen; lia]. simpl. now rewrite app_nil_r.
  - destruct s as [|c s]; [simpl; now rewrite app_nil_r|].
    cbn [splitLoop split_runs andb].
    destruct (Nat.leb_spec k (ws_run (c :: s))) as [Hrun|Hrun].
    + assert (Ec : is_ws c = true).
      { simpl in Hrun. destruct (is_ws c); [reflexivity | lia]. }
      rewrite Ec. cbn [andb]. rewrite app_nil_r. f_equal.
      rewrite IH.
      * simpl ws_run. rewrite Ec. cbn [skipn]. rewrite split_runs_skip.
        pose proof (@split_runs_nonempty k false (skipn (ws_run s) s)) as Hn.
        destruct (split_runs k false (skipn (ws_run s) s));
          [contradiction | reflexivity].
      * rewrite length_skipn. simpl ws_run. rewrite Ec.
        cbn [length] in *. lia.
    + rewrite andb_false_r. rewrite IH by (simpl in Hlen; lia).
      pose proof (@split_runs_nonempty k false s) as Hn.
      destruct (split_runs k false s); [contradiction|].
      simpl. now rewrite <- app_assoc.
Qed.

Lemma regexSplit_split_runs (k : nat) (s : jsstring) :
  1 <= k -> regexSplit k s = split_runs k false s.
Proof.
  intros Hk. unfold regexSplit.
  rewrite splitLoop_split_runs by (auto; lia).
  pose proof (@split_runs_nonempty k false s) as Hn.
  destruct (split_runs k false s); [contradiction | reflexivity].
Qed.

(** [includes] against membership. *)
Lemma includes1_In (c : codeunit) (s : jsstring) :
  includes1 c s = true <-> In c s.
Proof.
  unfold includes1. rewrite existsb_exists. split.
  - intros [x [Hx He]]. apply N.eqb_eq in He. now subst.
  - intros H. exists c. split; [assumption | apply N.eqb_refl].
Qed.

(** A string split on a one-unit separator has one more token than it has
    separators: no token is dropped. *)
Lemma cons_hd_length (c : codeunit) (ts : list jsstring) :
  ts <> [] -> length (cons_hd c ts) = length ts.
Proof. destruct ts; [congruence | reflexivity]. Qed.

Lemma split_on_nonempty (c : codeunit) (s : jsstring) : split_on c s <> [].
Proof.
  induction s as [|x s IH]; simpl; [discriminate|].
  destruct (x =? c)%N; [discriminate|].
  destruct (split_on c s); [contradiction | discriminate].
Qed.

Lemma split_on_length (c : codeunit) (s : jsstring) :
  length (split_on c s) = S (count_occ N.eq_dec s c).
Proof.
  induction s as [|x s IH]; simpl; [reflexivity|].
  destruct (N.eqb_spec x c) as [->|Hne].
  - destruct (N.eq_dec c c); [simpl; now rewrite IH | congruence].
  - destruct (N.eq_dec x c); [congruence|].
    rewrite cons_hd_length by apply split_on_nonempty. exact IH.
Qed.

(** [trim] is idempotent: its result starts and ends with a unit that is
    not whitespace. *)
Lemma dropWhile_fix (p : codeunit -> bool) (s : jsstring) :
  dropWhile p (dropWhile p s) = dropWhile p s.
Proof.
  induction s as [|c s IH]; simpl; [reflexivity|].
  destruct (p c) eqn:E; [exact IH | simpl; now rewrite E].
Qed.

Lemma dropWhile_last (p : codeunit -> bool) (s : jsstring) (c : codeunit) :
  p c = false -> dropWhile p (s ++ [c]) = dropWhile p s ++ [c].
Proof.
  intros Hc. induction s as [|x s IH]; simpl.
  - now rewrite Hc.
  - destruct (p x); [exact IH | reflexivity].
Qed.

Lemma dropWhile_head (p : codeunit -> bool) (s : jsstring) :
  match dropWhile p s with
  | [] => True
  | c :: _ => p c = false
  end.
Proof.
  induction s as [|x s IH]; simpl; [exact I|].
  destruct (p x) eqn:E; [exact IH | exact E].
Qed.

Lemma dropWhile_rev_keep (p : codeunit -> bool) (s : jsstring) :
  dropWhile p (rev (dropWhile p (rev (dropWhile p s))))
  = rev (dropWhile p (rev (dropWhile p s))).
Proof.
  pose proof (dropWhile_head p s) as Hh.
  destruct (dropWhile p s) as [|c t] eqn:E; [reflexivity|].
  simpl rev. rewrite dropWhile_last by exact Hh.
  rewrite rev_app_distr. simpl. now rewrite Hh.
Qed.

Lemma trim_trimmed (s : jsstring) : trimmed (trim s).
Proof.
  unfold trimmed, trim.
  rewrite (dropWhile_rev_keep is_ws s), rev_involutive, dropWhile_fix.
  reflexivity.
Qed.

Lemma trimDropEmpty_spec (ts : list jsstring) (t : jsstring) :
  In t (trimDropEmpty ts) -> t <> [] /\ trimmed t.
Proof.
  unfold trimDropEmpty. rewrite filter_In, in_map_iff.
  intros [[x [<- _]] Hne]. split.
  - destruct (trim x); [discriminate | discriminate].
  - apply trim_trimmed.
Qed.

(* ================================================================== *)
(** ** The header search keeps the first best candidate *)

Section HeaderSearch.
Import Pdf HeaderOrder.

Lemma visit_inj (i i' : nat) (d d' : Delimiter) :
  visit i d = visit i' d' -> i = i' /\ d = d'.
Proof.
  unfold visit. destruct d, d'; simpl; intros H; split;
    first [lia | reflexivity].
Qed.

Lemma visit_order (i i' : nat) (d d' : Delimiter) :
  visit i d <= visit i' d' <-> line_then_delimiter i d i' d'.
Proof.
  unfold visit, line_then_delimiter. destruct d, d'; simpl; lia.
Qed.

(** An attempt that does not beat the current best leaves it alone. *)
Lemma tryDelimiter_keeps (i : nat) (line : jsstring) (d : Delimiter)
  (b : Best) :
  length (headerTokens d line) <= bestHeaderCount b ->
  tryDelimiter i line d b = b.
Proof.
  intros H. unfold tryDelimiter. destruct (hasDelimiter d line); [|reflexivity].
  destruct (Nat.ltb_spec (bestHeaderCount b) (length (headerTokens d line)));
    [lia | reflexivity].
Qed.

Lemma tryDelimiter_searched (w : list jsstring) (i : nat) (line : jsstring)
  (d : Delimiter) (b : Best) :
  nth_error w i = Some line ->
  searched w (visit i d) b ->
  searched w (S (visit i d)) (tryDelimiter i line d b).
Proof.
  intros Hline [Hmax Hwin].
  assert (Hcand : candidate w i d
                  = if hasDelimiter d line
                    then Some (length (headerTokens d line)) else None)
    by (unfold candidate; now rewrite Hline).
  assert (Hpos : forall i' d', visit i' d' < S (visit i d) ->
            visit i' d' < visit i d \/ (i' = i /\ d' = d)).
  { intros i' d' H. destruct (Nat.eq_dec (visit i' d') (visit i d)) as [E|E].
    - right. now apply visit_inj.
    - left. lia. }
  unfold tryDelimiter. destruct (hasDelimiter d line) eqn:Hg.
  - destruct (Nat.ltb_spec (bestHeaderCount b) (length (headerTokens d line)))
      as [Hlt|Hge]; simpl.
    + split; simpl.
      * intros i' d' n Hv Hc. destruct (Hpos _ _ Hv) as [Ho|[-> ->]].
        -- specialize (Hmax _ _ _ Ho Hc). lia.
        -- rewrite Hcand in Hc. injection Hc as <-. lia.
      * intros _. split; [exact Hcand|]. split; [lia|].
        intros i' d' Hv Hc. destruct (Hpos _ _ Hv) as [Ho|[-> ->]].
        -- specialize (Hmax _ _ _ Ho Hc). lia.
        -- lia.
    + split.
      * intros i' d' n Hv Hc. destruct (Hpos _ _ Hv) as [Ho|[-> ->]].
        -- exact (Hmax _ _ _ Ho Hc).
        -- rewrite Hcand in Hc. injection Hc as <-. exact Hge.
      * intros Hp. destruct (Hwin Hp) as [Hw [Hb Hfirst]].
        split; [exact Hw|]. split; [lia|].
        intros i' d' Hv Hc. destruct (Hpos _ _ Hv) as [Ho|[-> ->]].
        -- exact (Hfirst _ _ Ho Hc).
        -- lia.
  - split.
    + intros i' d' n Hv Hc. destruct (Hpos _ _ Hv) as [Ho|[-> ->]].
      * exact (Hmax _ _ _ Ho Hc).
      * rewrite Hcand in Hc. discriminate.
    + intros Hp. destruct (Hwin Hp) as [Hw [Hb Hfirst]].
      split; [exact Hw|]. split; [lia|].
      intros i' d' Hv Hc. destruct (Hpos _ _ Hv) as [Ho|[-> ->]].
      * exact (Hfirst _ _ Ho Hc).
      * rewrite Hcand in Hc. discriminate.
Qed.

Lemma scanLine_searched (w : list jsstring) (i : nat) (line : jsstring)
  (b : Best) :
  nth_error w i = Some line ->
  searched w (3 * i) b ->
  searched w (3 * S i) (scanLine i line b).
Proof.
  intros Hline H. unfold scanLine.
  replace (3 * S i) with (S (visit i tab)) by (unfold visit; simpl; lia).
  apply tryDelimiter_searched; [exact Hline|].
  replace (visit i tab) with (S (visit i comma)) by (unfold visit; simpl; lia).
  apply tryDelimiter_searched; [exact Hline|].
  replace (visit i comma) with (S (visit i space))
    by (unfold visit; simpl; lia).
  apply tryDelimiter_searched; [exact Hline|].
  replace (visit i space) with (3 * i) by (unfold visit; simpl; lia).
  exact H.
Qed.

Lemma scanLines_searched (ls pre : list jsstring) (b : Best) :
  searched (pre ++ ls) (3 * length pre) b ->
  searched (pre ++ ls) (3 * length (pre ++ ls))
           (scanLines (length pre) ls b).
Proof.
  revert pre b. induction ls as [|line ls IH]; intros pre b H; simpl.
  - now rewrite app_nil_r in *.
  - replace (pre ++ line :: ls) with ((pre ++ [line]) ++ ls) in *
      by (now rewrite <- app_assoc).
    replace (S (length pre)) with (length (pre ++ [line]))
      by (rewrite length_app; simpl; lia).
    apply IH.
    replace (length (pre ++ [line])) with (S (length pre))
      by (rewrite length_app; simpl; lia).
    apply scanLine_searched; [|exact H].
    rewrite <- app_assoc. simpl.
    rewrite nth_error_app2 by lia. now rewrite Nat.sub_diag.
Qed.

Lemma candidate_in_window (w : list jsstring) (i : nat) (d : Delimiter)
  (n : nat) :
  candidate w i d = Some n -> visit i d < 3 * length w.
Proof.
  unfold candidate. destruct (nth_error w i) eqn:E; [|discriminate].
  intros _. assert (i < length w) by (apply nth_error_Some; congruence).
  unfold visit. destruct d; simpl; lia.
Qed.

Lemma detectHeader_searched (lines : list jsstring) :
  searched (potentialHeaderLines lines)
           (3 * length (potentialHeaderLines lines)) (detectHeader lines).
Proof.
  unfold detectHeader.
  apply (@scanLines_searched (potentialHeaderLines lines) [] initBest).
  split; simpl; [intros; lia | intros; lia].
Qed.

End HeaderSearch.

(** C1 (amended): in the header search, the winner has the highest token
    count of all candidates of the header window; among candidates with
    that count it is the first one visited, which means earliest line
    first and, within a line, delimiter order space, comma, tab; and an
    attempt whose count is equal to or lower than the current best never
    replaces it. *)
Theorem detectHeader_first_best (lines : list jsstring) :
  let w := Pdf.potentialHeaderLines lines in
  let b := Pdf.detectHeader lines in
  (forall i d n, HeaderOrder.candidate w i d = Some n ->
                 n <= Pdf.bestHeaderCount b) /\
  (0 < Pdf.bestHeaderCount b ->
   HeaderOrder.candidate w (Pdf.bestHeaderLine b) (Pdf.bestDelimiter b)
     = Some (Pdf.bestHeaderCount b) /\
   forall i d,
     HeaderOrder.candidate w i d = Some (Pdf.bestHeaderCount b) ->
     HeaderOrder.line_then_delimiter
       (Pdf.bestHeaderLine b) (Pdf.bestDelimiter b) i d) /\
  (forall i line d b0,
     length (Pdf.headerTokens d line) <= Pdf.bestHeaderCount b0 ->
     Pdf.tryDelimiter i line d b0 = b0).
Proof.
  intros w b. destruct (detectHeader_searched lines) as [Hmax Hwin].
  fold w in Hmax, Hwin. fold b in Hmax, Hwin.
  split; [|split].
  - intros i d n Hc. apply (Hmax i d n); [|exact Hc].
    exact (candidate_in_window _ _ _ Hc).
  - intros Hp. destruct (Hwin Hp) as [Hw [_ Hfirst]]. split; [exact Hw|].
    intros i d Hc. apply visit_order. apply Hfirst; [|exact Hc].
    exact (candidate_in_window _ _ _ Hc).
  - intros i line d b0. apply tryDelimiter_keeps.
Qed.

(** Two lines with three tokens each, comma on line 0 and space runs on
    line 1: the comma candidate of line 0 is kept. *)
Lemma detectHeader_first_best_witness :
  0 < Pdf.bestHeaderCount (Pdf.detectHeader [js "a,b,c"; js "a  b  c"]) /\
  HeaderOrder.line_then_delimiter 0 Pdf.comma 1 Pdf.space.
Proof.
  split; [vm_compute; lia|].
  apply (proj2 (proj1 (proj2
           (detectHeader_first_best [js "a,b,c"; js "a  b  c"]))
           ltac:(vm_compute; lia)) 1 Pdf.space).
  reflexivity.
Defined.

(** C1 as stated fails: with delimiter order deciding first, the space
    candidate of line 1 would beat the comma candidate of line 0. *)
Lemma ties_by_delimiter_first_fails :
  ~ HeaderOrder.ties_by_delimiter_first [js "a,b,c"; js "a  b  c"].
Proof.
  intros H. specialize (H 1 Pdf.space eq_refl).
  vm_compute in H. destruct H as [H|[H _]]; [lia | discriminate].
Qed.

(* ================================================================== *)
(** ** Faults *)

(** C2 (amended): an exception thrown while extracting is caught and
    turned into the empty result, the same result as for a text without a
    table, and the handler answers both with the same message. *)
Theorem fault_becomes_empty_result (o : Origin) (e : Thrown) :
  extractTableData o (inl e) = [] /\
  extractTableData o (inl e) = extractTableData o (inr []) /\
  POST o (inr tt) (inl e) = BadRequest noTableMessage /\
  POST o (inr tt) (inl e) = POST o (inr tt) (inr []).
Proof. destruct o; repeat split. Qed.

(** C2 as stated fails: a parser exception is answered like a PDF without
    a table. *)
Lemma fault_reported_distinctly_fails :
  ~ fault_reported_distinctly noisy (Exception "Invalid PDF structure").
Proof. intros H. apply H. reflexivity. Qed.

(* ================================================================== *)
(** ** Row objects: which keys an assignment sequence leaves *)

Lemma hasProp_keys (k : jsstring) (r : Row) :
  hasProp k r = existsb (str_eqb k) (map fst r).
Proof.
  induction r as [|[k' v'] r IH]; simpl; [reflexivity | now rewrite IH].
Qed.

Lemma replaceProp_keys (k v : jsstring) (r : Row) :
  map fst (replaceProp k v r) = map fst r.
Proof.
  induction r as [|[k' v'] r IH]; simpl; [reflexivity|].
  destruct (str_eqb k k'); simpl; [reflexivity | now rewrite IH].
Qed.

Lemma rowSet_keys (r : Row) (k v : jsstring) :
  map fst (rowSet r k v) = addKey (map fst r) k.
Proof.
  unfold rowSet, addKey. destruct (str_eqb k proto_key); [reflexivity|].
  rewrite <- hasProp_keys. destruct (hasProp k r).
  - apply replaceProp_keys.
  - rewrite map_app. reflexivity.
Qed.

Lemma fold_rowSet_keys (kvs : list (jsstring * jsstring)) (r : Row) :
  map fst (fold_left (fun row kv => rowSet row (fst kv) (snd kv)) kvs r)
  = fold_left addKey (map fst kvs) (map fst r).
Proof.
  revert r. induction kvs as [|[k v] kvs IH]; intros r; simpl;
    [reflexivity|].
  rewrite IH, rowSet_keys. reflexivity.
Qed.

Lemma assign_keys (kvs : list (jsstring * jsstring)) :
  map fst (assign kvs) = assignedKeys (map fst kvs).
Proof. unfold assign, assignedKeys. now rewrite fold_rowSet_keys. Qed.

Lemma addKey_incl (ks : list jsstring) (k x : jsstring) :
  In x (addKey ks k) -> In x ks \/ x = k.
Proof.
  unfold addKey. destruct (str_eqb k proto_key); [auto|].
  destruct (existsb (str_eqb k) ks); [auto|].
  rewrite in_app_iff. simpl. intuition.
Qed.

Lemma fold_addKey_incl (l ks : list jsstring) (x : jsstring) :
  In x (fold_left addKey l ks) -> In x ks \/ In x l.
Proof.
  revert ks. induction l as [|k l IH]; intros ks H; simpl in *; [auto|].
  destruct (IH _ H) as [H1|H1]; [|auto].
  destruct (addKey_incl _ _ _ H1); auto.
Qed.

Lemma assignedKeys_incl (l : list jsstring) (x : jsstring) :
  In x (assignedKeys l) -> In x l.
Proof.
  intros H. destruct (fold_addKey_incl _ _ _ H) as [[]|H1]; exact H1.
Qed.

(** Distinct keys, none of them [__proto__], are all created, in order. *)
Lemma fold_rowSet_fresh (kvs : list (jsstring * jsstring)) (r : Row) :
  NoDup (map fst r ++ map fst kvs) ->
  ~ In proto_key (map fst kvs) ->
  fold_left (fun row kv => rowSet row (fst kv) (snd kv)) kvs r = r ++ kvs.
Proof.
  revert r. induction kvs as [|[k v] kvs IH]; intros r Hnd Hp; simpl.
  - now rewrite app_nil_r.
  - simpl in Hp. assert (Hset : rowSet r k v = r ++ [(k, v)]).
    { unfold rowSet.
      destruct (str_eqb k proto_key) eqn:E.
      - apply str_eqb_eq in E. exfalso. apply Hp. left. exact E.
      - rewrite hasProp_keys.
        destruct (existsb (str_eqb k) (map fst r)) eqn:E2; [|reflexivity].
        apply existsb_exists in E2. destruct E2 as [x [Hx Hkx]].
        apply str_eqb_eq in Hkx. subst x. exfalso.
        simpl in Hnd. apply NoDup_remove_2 in Hnd. apply Hnd.
        apply in_or_app. left. exact Hx. }
    rewrite Hset, IH.
    + rewrite <- app_assoc. reflexivity.
    + rewrite map_app. simpl. rewrite <- app_assoc. exact Hnd.
    + intros H. apply Hp. right. exact H.
Qed.

Lemma assign_fresh (kvs : list (jsstring * jsstring)) :
  NoDup (map fst kvs) -> ~ In proto_key (map fst kvs) -> assign kvs = kvs.
Proof. intros Hnd Hp. unfold assign. now rewrite fold_rowSet_fresh. Qed.

(** The index loops against [combine]. *)
Lemma combine_by_index {A B : Type} (dA : A) (dB : B) (hs : list A)
  (vs : list B) :
  map (fun j => (nth j hs dA, nth j vs dB))
      (seq 0 (Nat.min (length hs) (length vs)))
  = combine hs vs.
Proof.
  revert vs. induction hs as [|h hs IH]; intros vs; simpl; [reflexivity|].
  destruct vs as [|v vs]; simpl; [reflexivity|].
  rewrite <- seq_shift, map_map. simpl. now rewrite IH.
Qed.

Lemma combine_seq_from {A : Type} (dA : A) (hs : list A) (a : nat) :
  combine (seq a (length hs)) hs
  = map (fun j => (j, nth (j - a) hs dA)) (seq a (length hs)).
Proof.
  revert a. induction hs as [|h hs IH]; intros a; simpl; [reflexivity|].
  rewrite Nat.sub_diag. f_equal. rewrite IH. apply map_ext_in.
  intros j Hj. apply in_seq in Hj.
  replace (j - a) with (S (j - S a)) by lia. reflexivity.
Qed.

Lemma combine_seq_index {A : Type} (dA : A) (hs : list A) :
  combine (seq 0 (length hs)) hs
  = map (fun j => (j, nth j hs dA)) (seq 0 (length hs)).
Proof.
  rewrite (combine_seq_from dA hs 0). apply map_ext.
  intros j. now rewrite Nat.sub_0_r.
Qed.

Lemma fold_left_map {A B C : Type} (f : C -> B -> C) (g : A -> B)
  (l : list A) (c : C) :
  fold_left f (map g l) c = fold_left (fun acc x => f acc (g x)) l c.
Proof.
  revert c. induction l as [|a l IH]; intros c; simpl; [reflexivity|].
  apply IH.
Qed.

Lemma Pdf_buildRow_assign (hs vs : list jsstring) :
  Pdf.buildRow hs vs = assign (combine hs vs).
Proof.
  unfold Pdf.buildRow, assign.
  rewrite <- (combine_by_index ([] : jsstring) ([] : jsstring) hs vs).
  rewrite fold_left_map. reflexivity.
Qed.

Lemma Text_buildRow_assign (hs vs : list jsstring) :
  length vs = length hs -> Text.buildRow hs vs = assign (combine hs vs).
Proof.
  intros Hlen. unfold Text.buildRow, assign.
  rewrite (combine_seq_index ([] : jsstring) hs), fold_left_map.
  rewrite <- (combine_by_index ([] : jsstring) ([] : jsstring) hs vs).
  rewrite fold_left_map.
  rewrite Hlen, Nat.min_id. reflexivity.
Qed.

Lemma patternRow_assign (hs words : list jsstring) :
  length words = length hs ->
  Pdf.patternRow hs words = assign (combine hs words).
Proof.
  intros Hlen. unfold Pdf.patternRow, assign.
  rewrite (combine_seq_index ([] : jsstring) words), fold_left_map.
  rewrite <- (combine_by_index ([] : jsstring) ([] : jsstring) hs words).
  rewrite fold_left_map.
  rewrite Hlen, Nat.min_id. reflexivity.
Qed.

Lemma map_fst_combine {A B : Type} (hs : list A) (vs : list B) :
  map fst (combine hs vs) = firstn (length vs) hs.
Proof.
  revert vs. induction hs as [|h hs IH]; intros vs; simpl.
  - now rewrite firstn_nil.
  - destruct vs; simpl; [reflexivity | now rewrite IH].
Qed.

(* ================================================================== *)
(** ** The loops, read as the rows they push *)

Lemma dataRows_filterMap (d : Pdf.Delimiter) (hs : list jsstring) (k : nat)
  (lines : list jsstring) :
  Pdf.dataRows d hs k lines
  = filterMap (Pdf.rowOfLine d hs) (skipn (S k) lines).
Proof. unfold Pdf.dataRows. now rewrite push_fold. Qed.

Lemma patternRows_filterMap (n : nat) (lines : list jsstring) :
  Pdf.patternRows n lines
  = map (fun line => Pdf.patternRow (Pdf.genericHeaders n) (split_ws1 line))
        (filter (fun line => (Pdf.wordCountOf line =? n)%nat) lines).
Proof.
  unfold Pdf.patternRows.
  rewrite (push_fold
             (fun line => if (length (split_ws1 line) =? n)%nat
                          then Some (Pdf.patternRow (Pdf.genericHeaders n)
                                                    (split_ws1 line))
                          else None)).
  simpl. apply filterMap_length_filter.
Qed.

Lemma Text_extractLines_filterMap (lines : list jsstring) :
  1 < length lines ->
  Text.extractLines lines
  = filterMap (Text.rowOfLine (Text.chooseDelimiter (nth 0 lines []))
                              (Text.headersOf lines))
              (skipn 1 lines).
Proof.
  intros H. unfold Text.extractLines.
  destruct (Nat.ltb_spec 1 (length lines)) as [_|Hle]; [|lia].
  cbv zeta. now rewrite push_fold.
Qed.

(* ================================================================== *)
(** ** The generic headers *)

Lemma js_inj (s t : string) : js s = js t -> s = t.
Proof.
  unfold js. intros H.
  rewrite <- (string_of_list_ascii_of_string s),
          <- (string_of_list_ascii_of_string t).
  f_equal. revert H.
  generalize (list_ascii_of_string s) (list_ascii_of_string t).
  intros l. induction l as [|a l IH]; intros [|b m] H; simpl in H;
    try discriminate; [reflexivity|].
  injection H as Hab Hlm. f_equal; [|now apply IH].
  rewrite <- (ascii_N_embedding a), <- (ascii_N_embedding b).
  now rewrite Hab.
Qed.

Lemma decimal_inj (n m : nat) : decimal n = decimal m -> n = m.
Proof.
  unfold decimal. intros H. apply js_inj in H.
  apply Unsigned.to_uint_inj.
  assert (Hs : Some (Nat.to_uint n) = Some (Nat.to_uint m))
    by (rewrite <- !NilEmpty.usu; now rewrite H).
  now injection Hs.
Qed.

Lemma genericHeaders_length (n : nat) : length (Pdf.genericHeaders n) = n.
Proof. unfold Pdf.genericHeaders. now rewrite length_map, length_seq. Qed.

Lemma genericHeaders_In (n : nat) (k : jsstring) :
  In k (Pdf.genericHeaders n) ->
  exists i, i < n /\ k = js "Column" ++ decimal (i + 1).
Proof.
  unfold Pdf.genericHeaders. rewrite in_map_iff.
  intros [i [<- Hi]]. apply in_seq in Hi. exists i. split; [lia|reflexivity].
Qed.

Lemma genericHeaders_NoDup (n : nat) : NoDup (Pdf.genericHeaders n).
Proof.
  unfold Pdf.genericHeaders. apply NoDup_map_NoDup_ForallPairs.
  - intros i j _ _ H. apply app_inv_head in H. apply decimal_inj in H. lia.
  - apply seq_NoDup.
Qed.

Lemma genericHeaders_not_proto (n : nat) :
  ~ In proto_key (Pdf.genericHeaders n).
Proof.
  intros H. apply genericHeaders_In in H. destruct H as [i [_ H]].
  discriminate H.
Qed.

Lemma genericHeaders_nonempty (n : nat) :
  ~ In [] (Pdf.genericHeaders n).
Proof.
  intros H. apply genericHeaders_In in H. destruct H as [i [_ H]].
  discriminate H.
Qed.

Lemma genericHeaders_names (n : nat) (k : jsstring) :
  In k (Pdf.genericHeaders n) -> array_index k = None.
Proof.
  intros H. apply genericHeaders_In in H. destruct H as [i [_ ->]].
  reflexivity.
Qed.

Lemma order_keys_names (ks : list jsstring) :
  (forall k, In k ks -> array_index k = None) -> order_keys ks = ks.
Proof.
  intros H. unfold order_keys.
  assert (Hi : index_keys ks = []).
  { induction ks as [|k ks IH]; simpl; [reflexivity|].
    rewrite (H k (or_introl eq_refl)). apply IH.
    intros k' Hk'. apply H. now right. }
  assert (Hn : name_keys ks = ks).
  { clear Hi. induction ks as [|k ks IH]; simpl; [reflexivity|].
    rewrite (H k (or_introl eq_refl)). f_equal. apply IH.
    intros k' Hk'. apply H. now right. }
  now rewrite Hi, Hn.
Qed.

(** A line with exactly [n] words becomes the row
    [Column1 -> word1, .., Columnn -> wordn]. *)
Lemma patternRow_columns (n : nat) (words : list jsstring) :
  length words = n ->
  Pdf.patternRow (Pdf.genericHeaders n) words
  = combine (Pdf.genericHeaders n) words.
Proof.
  intros Hlen.
  rewrite patternRow_assign by (now rewrite genericHeaders_length).
  assert (Hk : map fst (combine (Pdf.genericHeaders n) words)
               = Pdf.genericHeaders n).
  { rewrite map_fst_combine, Hlen. apply firstn_all2.
    now rewrite genericHeaders_length. }
  apply assign_fresh; rewrite Hk.
  - apply genericHeaders_NoDup.
  - apply genericHeaders_not_proto.
Qed.

(* ================================================================== *)
(** ** Which keys the rows of a result carry *)

Lemma accepts_spec (hs vs : list jsstring) :
  Pdf.accepts hs vs = true <->
  (Z.max 2 (Z.of_nat (length hs) - 1) <= Z.of_nat (length vs)
   <= Z.of_nat (length hs) + 1)%Z.
Proof.
  unfold Pdf.accepts. rewrite andb_true_iff, !Z.leb_le. tauto.
Qed.

Lemma Pdf_rowOfLine_keys (d : Pdf.Delimiter) (hs : list jsstring)
  (line : jsstring) (r : Row) :
  Pdf.rowOfLine d hs line = Some r ->
  map fst r = assignedKeys hs \/ map fst r = assignedKeys (removelast hs).
Proof.
  unfold Pdf.rowOfLine.
  destruct (Pdf.accepts hs (Pdf.dataTokens d line)) eqn:Ha; [|discriminate].
  intros H. injection H as <-. apply accepts_spec in Ha.
  rewrite Pdf_buildRow_assign, assign_keys, map_fst_combine.
  destruct (Nat.le_gt_cases (length hs) (length (Pdf.dataTokens d line)))
    as [Hge|Hlt].
  - left. now rewrite firstn_all2.
  - right. rewrite removelast_firstn_len.
    replace (Nat.pred (length hs)) with (length (Pdf.dataTokens d line))
      by lia.
    reflexivity.
Qed.

Lemma Text_rowOfLine_keys (d : Text.Delimiter) (hs : list jsstring)
  (line : jsstring) (r : Row) :
  Text.rowOfLine d hs line = Some r -> map fst r = assignedKeys hs.
Proof.
  unfold Text.rowOfLine.
  destruct (Nat.eqb_spec (length (Text.tokens d line)) (length hs))
    as [He|]; [|discriminate].
  intros H. injection H as <-.
  rewrite Text_buildRow_assign, assign_keys, map_fst_combine by exact He.
  now rewrite He, firstn_all.
Qed.

Lemma approach2_rows (lines : list jsstring) (rows : list Row) :
  Pdf.approach2 lines = Some rows ->
  rows = Pdf.patternRows
           (fst (Pdf.pickMostCommon (Pdf.wordCountMap lines))) lines.
Proof.
  unfold Pdf.approach2.
  destruct (Pdf.pickMostCommon (Pdf.wordCountMap lines)) as [n f].
  cbn [fst].
  destruct ((3 <=? f)%nat && (2 <=? n)%nat); [|discriminate].
  cbv zeta.
  destruct (0 <? length (Pdf.patternRows n lines))%nat; [|discriminate].
  congruence.
Qed.

Lemma approach1_rows (lines : list jsstring) (rows : list Row) :
  Pdf.approach1 lines = Some rows ->
  rows = Pdf.dataRows (Pdf.bestDelimiter (Pdf.detectHeader lines))
                      (Pdf.chosenHeaders lines)
                      (Pdf.bestHeaderLine (Pdf.detectHeader lines)) lines.
Proof.
  unfold Pdf.approach1.
  cbv zeta.
  destruct (2 <=? Pdf.bestHeaderCount (Pdf.detectHeader lines))%nat;
    [|discriminate].
  match goal with
  | |- context [(0 <? length ?x)%nat] => destruct (0 <? length x)%nat
  end; [|discriminate].
  congruence.
Qed.

Lemma result_row_keys (o : Origin) (text : jsstring) (r : Row) :
  In r (extractTableData o (inr text)) ->
  map fst r = assignedKeys (resultHeaders o text) \/
  (tolerant o text /\
   map fst r = assignedKeys (removelast (resultHeaders o text))).
Proof.
  unfold tolerant, resultHeaders.
  destruct o;
    unfold extractTableData, extractBody, tryCatch, tryBind,
           Pdf.extract, Text.extract; cbv beta iota zeta.
  - unfold Pdf.extractLines.
    destruct (1 <? length (nonBlankLines text))%nat; [|intros []].
    destruct (Pdf.approach1 (nonBlankLines text)) as [rows|] eqn:E1.
    + rewrite (approach1_rows _ E1), dataRows_filterMap, filterMap_In.
      intros [line [_ Hr]].
      destruct (Pdf_rowOfLine_keys _ _ _ Hr) as [H|H]; [now left|].
      right. split; [split; [reflexivity | discriminate] | exact H].
    + unfold Pdf.fallback.
      destruct (Pdf.approach2 (nonBlankLines text)) as [rows|] eqn:E2;
        [|intros []].
      rewrite (approach2_rows _ E2), patternRows_filterMap, in_map_iff.
      intros [line [<- Hin]]. apply filter_In in Hin.
      destruct Hin as [_ Hn]. apply Nat.eqb_eq in Hn.
      left. rewrite patternRow_assign, assign_keys, map_fst_combine
        by (now rewrite genericHeaders_length).
      f_equal. apply firstn_all2. rewrite genericHeaders_length.
      unfold Pdf.wordCountOf in Hn. lia.
  - destruct (Nat.ltb_spec 1 (length (nonBlankLines text))) as [Hl|Hl].
    + rewrite (Text_extractLines_filterMap _ Hl), filterMap_In.
      intros [line [_ Hr]]. left. exact (Text_rowOfLine_keys _ _ _ Hr).
    + unfold Text.extractLines.
      destruct (Nat.ltb_spec 1 (length (nonBlankLines text))); [lia|].
      intros [].
Qed.

(** C3 (amended): every row of a result carries, in enumeration order, the
    keys left by assigning the result's headers in turn; only in a result
    of the tolerant extractor of the noisy path may a row instead carry the
    keys of all headers but the last (a line one token short).  Where that
    extractor did not produce the result (clean path, pattern fallback),
    all rows share the same ordered keys. *)
Theorem rows_keys_from_headers (o : Origin) (text : jsstring) :
  (forall r, In r (extractTableData o (inr text)) ->
     Object_keys r = order_keys (assignedKeys (resultHeaders o text)) \/
     (tolerant o text /\
      Object_keys r
      = order_keys (assignedKeys (removelast (resultHeaders o text))))) /\
  (~ tolerant o text -> rows_share_keys (extractTableData o (inr text))).
Proof.
  split.
  - intros r Hr. unfold Object_keys.
    destruct (result_row_keys _ _ _ Hr) as [->|[Ht ->]]; auto.
  - intros Hnt r1 r2 H1 H2. unfold Object_keys.
    destruct (result_row_keys _ _ _ H1) as [->|[Ht _]]; [|contradiction].
    destruct (result_row_keys _ _ _ H2) as [->|[Ht _]]; [|contradiction].
    reflexivity.
Qed.

(** The clean scenario of a header and two matching lines: both rows have
    the keys a, b, c. *)
Lemma rows_keys_from_headers_witness :
  ~ tolerant clean (lines_of [js "a,b,c"; js "1,2,3"; js "4,5,6"]) /\
  rows_share_keys
    (extractTableData clean
       (inr (lines_of [js "a,b,c"; js "1,2,3"; js "4,5,6"]))).
Proof.
  assert (H : ~ tolerant clean
                (lines_of [js "a,b,c"; js "1,2,3"; js "4,5,6"]))
    by (intros [H _]; discriminate H).
  split; [exact H|].
  exact (proj2 (rows_keys_from_headers clean
                  (lines_of [js "a,b,c"; js "1,2,3"; js "4,5,6"])) H).
Defined.

(** C3 as stated fails: on the noisy path a line with two tokens under a
    header of three gives a row without the key c. *)
Lemma rows_share_keys_fails :
  ~ rows_share_keys
      (extractTableData noisy
         (inr (lines_of [js "a,b,c"; js "1,2,3"; js "4,5"]))).
Proof.
  intros H.
  specialize (H [(js "a", js "1"); (js "b", js "2"); (js "c", js "3")]
                [(js "a", js "4"); (js "b", js "5")]).
  vm_compute in H.
  assert (E : [[97%N]; [98%N]; [99%N]] = [[97%N]; [98%N]])
    by (apply H; [left | right; left]; reflexivity).
  discriminate E.
Qed.

(* ================================================================== *)
(** ** Data lines of the tolerant extractor *)

Lemma Forall_map_trim (ts : list jsstring) : Forall trimmed (map trim ts).
Proof.
  apply Forall_forall. intros t Ht. apply in_map_iff in Ht.
  destruct Ht as [x [<- _]]. apply trim_trimmed.
Qed.

Lemma NoDup_app_disjoint {A : Type} (f l : list A) :
  NoDup (f ++ l) -> forall k, In k f -> In k l -> False.
Proof.
  induction f as [|a f IH]; intros Hnd k Hf Hl; [contradiction|].
  simpl in Hnd. inversion Hnd as [|? ? Hna Hnd']; subst.
  destruct Hf as [->|Hf].
  - apply Hna. apply in_or_app. now right.
  - exact (IH Hnd' k Hf Hl).
Qed.

(** C4 (amended): every line strictly after the chosen header line is
    split by the chosen delimiter and its tokens are trimmed; only the
    space-run split then drops the tokens that are empty, while the comma
    split and the tab split keep every token, one more than the line has
    separators. *)
Theorem data_tokens_rule (line : jsstring) :
  (Pdf.dataTokens Pdf.space line = trimDropEmpty (split_ws2 line) /\
   Forall (fun t => t <> [] /\ trimmed t) (Pdf.dataTokens Pdf.space line)) /\
  (Pdf.dataTokens Pdf.comma line = map trim (split_on COMMA line) /\
   length (Pdf.dataTokens Pdf.comma line)
   = S (count_occ N.eq_dec line COMMA) /\
   Forall trimmed (Pdf.dataTokens Pdf.comma line)) /\
  (Pdf.dataTokens Pdf.tab line = map trim (split_on TAB line) /\
   length (Pdf.dataTokens Pdf.tab line) = S (count_occ N.eq_dec line TAB) /\
   Forall trimmed (Pdf.dataTokens Pdf.tab line)) /\
  (forall d hs k lines,
     Pdf.dataRows d hs k lines
     = filterMap
         (fun dataLine =>
            if Pdf.accepts hs (Pdf.dataTokens d dataLine)
            then Some (Pdf.buildRow hs (Pdf.dataTokens d dataLine))
            else None)
         (skipn (S k) lines)).
Proof.
  repeat split.
  - apply Forall_forall. intros t Ht. exact (trimDropEmpty_spec _ _ Ht).
  - simpl. now rewrite length_map, split_on_length.
  - apply Forall_map_trim.
  - simpl. now rewrite length_map, split_on_length.
  - apply Forall_map_trim.
  - intros d hs k lines. apply dataRows_filterMap.
Qed.

(** C4 as stated fails: a comma line with an empty field keeps it. *)
Lemma comma_data_keeps_empty :
  Pdf.dataTokens Pdf.comma (js "1,,3")
  <> specDataTokens Pdf.comma (js "1,,3").
Proof. vm_compute. discriminate. Qed.

(** C5: under headers [hs], a data line gives a row exactly when its token
    count T lies in [max(2, H-1), H+1]; the row assigns tokens to headers
    position by position; with T < H only the first T headers are
    assigned, so later header keys are absent (for pairwise distinct
    headers); with T > H the tokens beyond the first H are dropped; and the
    rows returned are those of the lines strictly after the header line,
    in order. *)
Theorem tolerant_row_rule (d : Pdf.Delimiter) (hs : list jsstring)
  (line : jsstring) :
  let vs := Pdf.dataTokens d line in
  let H := length hs in
  let T := length vs in
  ((exists r, Pdf.rowOfLine d hs line = Some r) <->
   (Z.max 2 (Z.of_nat H - 1) <= Z.of_nat T <= Z.of_nat H + 1)%Z) /\
  (forall r, Pdf.rowOfLine d hs line = Some r ->
     r = assign (combine hs vs) /\
     (T < H ->
      r = assign (combine (firstn T hs) vs) /\
      (forall k, In k (map fst r) -> In k (firstn T hs)) /\
      (NoDup hs -> forall k, In k (skipn T hs) -> ~ In k (map fst r))) /\
     (H < T -> r = assign (combine hs (firstn H vs)))) /\
  (forall k lines,
     Pdf.dataRows d hs k lines
     = filterMap (Pdf.rowOfLine d hs) (skipn (S k) lines)).
Proof.
  intros vs H T. split; [|split].
  - unfold Pdf.rowOfLine. fold vs. unfold H, T. rewrite <- accepts_spec.
    destruct (Pdf.accepts hs vs); split.
    + reflexivity.
    + intros _. eexists. reflexivity.
    + intros [r Hr]. discriminate Hr.
    + discriminate.
  - intros r Hr. unfold Pdf.rowOfLine in Hr. fold vs in Hr.
    destruct (Pdf.accepts hs vs); [|discriminate].
    injection Hr as <-. rewrite Pdf_buildRow_assign.
    split; [reflexivity|]. split.
    + intros Hlt.
      assert (Hin : forall k, In k (map fst (assign (combine hs vs))) ->
                              In k (firstn T hs)).
      { intros k Hk. rewrite assign_keys, map_fst_combine in Hk.
        exact (assignedKeys_incl _ _ Hk). }
      split; [|split].
      * unfold T. now rewrite <- combine_firstn_r.
      * exact Hin.
      * intros Hnd k Hk Hk'. apply Hin in Hk'.
        rewrite <- (firstn_skipn T hs) in Hnd.
        exact (NoDup_app_disjoint _ _ Hnd k Hk' Hk).
    + intros Hgt. unfold H. now rewrite <- combine_firstn_l.
  - intros k lines. apply dataRows_filterMap.
Qed.

(** Under the headers a, b, c the comma line with two fields gives the row
    with keys a and b. *)
Lemma tolerant_row_rule_witness :
  Pdf.rowOfLine Pdf.comma [js "a"; js "b"; js "c"] (js "4,5")
  = Some [(js "a", js "4"); (js "b", js "5")] /\
  [(js "a", js "4"); (js "b", js "5")]
  = assign (combine (firstn 2 [js "a"; js "b"; js "c"]) [js "4"; js "5"]).
Proof.
  split; [reflexivity|].
  apply (proj1 (proj2 (proj1 (proj2
           (tolerant_row_rule Pdf.comma [js "a"; js "b"; js "c"]
                              (js "4,5")))
           [(js "a", js "4"); (js "b", js "5")] eq_refl))
         ltac:(vm_compute; lia)).
Defined.

(* ================================================================== *)
(** ** The word-count histogram *)

Lemma mapHas_get (m : NumMap) (k : nat) :
  mapHas m k = match mapGet m k with Some _ => true | None => false end.
Proof.
  induction m as [|[k' v'] m IH]; simpl; [reflexivity|].
  destruct (k =? k')%nat; [reflexivity | exact IH].
Qed.

Lemma mapReplace_get (m : NumMap) (k v k' : nat) :
  mapHas m k = true ->
  mapGet (mapReplace m k v) k'
  = if (k' =? k)%nat then Some v else mapGet m k'.
Proof.
  induction m as [|[k0 v0] m IH]; simpl; [discriminate|].
  destruct (Nat.eqb_spec k k0) as [->|Hne]; simpl.
  - intros _. destruct (k' =? k0)%nat; reflexivity.
  - intros Hh. destruct (Nat.eqb_spec k' k0) as [->|Hne'].
    + destruct (Nat.eqb_spec k0 k); [congruence | reflexivity].
    + exact (IH Hh).
Qed.

Lemma mapGet_app (m : NumMap) (k v k' : nat) :
  mapGet (m ++ [(k, v)]) k'
  = match mapGet m k' with
    | Some x => Some x
    | None => if (k' =? k)%nat then Some v else None
    end.
Proof.
  induction m as [|[k0 v0] m IH]; simpl; [reflexivity|].
  destruct (k' =? k0)%nat; [reflexivity | exact IH].
Qed.

Lemma mapSet_get (m : NumMap) (k v k' : nat) :
  mapGet (mapSet m k v) k' = if (k' =? k)%nat then Some v else mapGet m k'.
Proof.
  unfold mapSet. destruct (mapHas m k) eqn:Hh.
  - now apply mapReplace_get.
  - rewrite mapGet_app. rewrite mapHas_get in Hh.
    destruct (Nat.eqb_spec k' k) as [->|Hne].
    + destruct (mapGet m k); [discriminate | reflexivity].
    + destruct (mapGet m k'); reflexivity.
Qed.

Lemma mapReplace_keys (m : NumMap) (k v : nat) :
  map fst (mapReplace m k v) = map fst m.
Proof.
  induction m as [|[k0 v0] m IH]; simpl; [reflexivity|].
  destruct (k =? k0)%nat; simpl; [reflexivity | now rewrite IH].
Qed.

Lemma mapHas_In (m : NumMap) (k : nat) :
  mapHas m k = true <-> In k (map fst m).
Proof.
  induction m as [|[k0 v0] m IH]; simpl; [split; [discriminate|tauto]|].
  rewrite orb_true_iff, IH, Nat.eqb_eq. intuition congruence.
Qed.

Lemma mapSet_NoDup (m : NumMap) (k v : nat) :
  NoDup (map fst m) -> NoDup (map fst (mapSet m k v)).
Proof.
  intros Hnd. unfold mapSet. destruct (mapHas m k) eqn:Hh.
  - now rewrite mapReplace_keys.
  - rewrite map_app. simpl. apply NoDup_app; [exact Hnd | | ].
    + constructor; [intros [] | constructor].
    + intros a Ha [<-|[]]. apply mapHas_In in Ha. congruence.
Qed.

Lemma mapGet_In (m : NumMap) (k v : nat) :
  NoDup (map fst m) -> (In (k, v) m <-> mapGet m k = Some v).
Proof.
  induction m as [|[k0 v0] m IH]; simpl; intros Hnd.
  - split; [tauto | discriminate].
  - inversion Hnd as [|? ? Hna Hnd']; subst.
    destruct (Nat.eqb_spec k k0) as [->|Hne].
    + split.
      * intros [H|H]; [congruence|]. exfalso. apply Hna.
        apply in_map_iff. exists (k0, v). auto.
      * intros H. left. congruence.
    + rewrite <- (IH Hnd'). split.
      * intros [H|H]; [congruence | exact H].
      * auto.
Qed.

Lemma frequency_snoc (pre : list jsstring) (line : jsstring) (c : nat) :
  frequency (pre ++ [line]) c
  = frequency pre c + (if (Pdf.wordCountOf line =? c)%nat then 1 else 0).
Proof.
  unfold frequency. rewrite filter_app, length_app. simpl.
  destruct (Pdf.wordCountOf line =? c)%nat; reflexivity.
Qed.

Lemma counts_step (pre : list jsstring) (line : jsstring) (m : NumMap) :
  counts pre m ->
  counts (pre ++ [line])
         (mapSet m (Pdf.wordCountOf line)
                 (Pdf.getOr0 m (Pdf.wordCountOf line) + 1)).
Proof.
  intros [Hnd Hget]. split; [now apply mapSet_NoDup|].
  intros c. rewrite mapSet_get, frequency_snoc.
  destruct (Nat.eqb_spec c (Pdf.wordCountOf line)) as [->|Hne].
  - rewrite Nat.eqb_refl. unfold Pdf.getOr0. rewrite Hget.
    destruct (Nat.eqb_spec (frequency pre (Pdf.wordCountOf line)) 0)
      as [->|Hz]; simpl; [reflexivity|].
    destruct (Nat.eqb_spec (frequency pre (Pdf.wordCountOf line) + 1) 0);
      [lia | reflexivity].
  - destruct (Nat.eqb_spec (Pdf.wordCountOf line) c); [congruence|].
    rewrite Nat.add_0_r. apply Hget.
Qed.

Lemma wordCountMap_counts_from (ls pre : list jsstring) (m : NumMap) :
  counts pre m ->
  counts (pre ++ ls)
         (fold_left (fun m line =>
                       mapSet m (Pdf.wordCountOf line)
                              (Pdf.getOr0 m (Pdf.wordCountOf line) + 1))
                    ls m).
Proof.
  revert pre m. induction ls as [|line ls IH]; intros pre m H; simpl.
  - now rewrite app_nil_r.
  - replace (pre ++ line :: ls) with ((pre ++ [line]) ++ ls)
      by (now rewrite <- app_assoc).
    apply IH. now apply counts_step.
Qed.

Lemma wordCountMap_counts (lines : list jsstring) :
  counts lines (Pdf.wordCountMap lines).
Proof.
  apply (@wordCountMap_counts_from lines [] []).
  split; [constructor | reflexivity].
Qed.

(** The scan of the histogram keeps the first entry of highest frequency
    among the word counts above 1. *)
Lemma pickMostCommon_from (m : NumMap) (st : nat * nat) :
  let res := fold_left Pdf.pickStep m st in
  snd st <= snd res /\
  (forall c f, In (c, f) m -> 1 < c -> f <= snd res) /\
  (res = st \/ (In res m /\ 1 < fst res /\ snd st < snd res)).
Proof.
  revert st. induction m as [|[c0 f0] m IH]; intros st; cbv zeta;
    cbn [fold_left].
  - split; [lia|]. split; [intros c f []|]. now left.
  - destruct (IH (Pdf.pickStep st (c0, f0))) as [Hle [Hall Hres]].
    assert (Hstep : snd st <= snd (Pdf.pickStep st (c0, f0)) /\
                    (1 < c0 -> f0 <= snd (Pdf.pickStep st (c0, f0))) /\
                    (Pdf.pickStep st (c0, f0) = st \/
                     (Pdf.pickStep st (c0, f0) = (c0, f0) /\ 1 < c0 /\
                      snd st < f0))).
    { unfold Pdf.pickStep. cbv beta iota zeta.
      destruct (Nat.ltb_spec (snd st) f0), (Nat.ltb_spec 1 c0); simpl.
      all: clear IH Hle Hall Hres.
      all: split; [lia|split; [intros; lia|]].
      all: first [ left; reflexivity | right; repeat split; assumption ]. }
    destruct Hstep as [Hs1 [Hs2 Hs3]].
    split; [lia|]. split.
    + intros c f [Hcf|Hin] Hc.
      * injection Hcf as <- <-. specialize (Hs2 Hc). lia.
      * exact (Hall c f Hin Hc).
    + destruct Hres as [Hres|[Hin [H1 Hlt]]].
      * rewrite Hres. destruct Hs3 as [->|[-> [H1 Hlt]]]; [now left|].
        right. simpl. auto.
      * right. split; [now right|]. split; [exact H1 | lia].
Qed.

Lemma pickMostCommon_spec (lines : list jsstring) :
  let N := fst (Pdf.pickMostCommon (Pdf.wordCountMap lines)) in
  let F := snd (Pdf.pickMostCommon (Pdf.wordCountMap lines)) in
  (forall c, 2 <= c -> frequency lines c <= F) /\
  (0 < F -> 2 <= N /\ frequency lines N = F).
Proof.
  intros N F. destruct (wordCountMap_counts lines) as [Hnd Hget].
  destruct (pickMostCommon_from (Pdf.wordCountMap lines) (0, 0))
    as [_ [Hall Hres]].
  fold (Pdf.pickMostCommon (Pdf.wordCountMap lines)) in Hall, Hres.
  assert (Hentry : forall c f, In (c, f) (Pdf.wordCountMap lines) ->
                               f = frequency lines c).
  { intros c f Hin. apply (@mapGet_In _ c f Hnd) in Hin. rewrite Hget in Hin.
    destruct (frequency lines c =? 0)%nat; congruence. }
  split.
  - intros c Hc. destruct (Nat.eqb_spec (frequency lines c) 0) as [->|Hz];
      [lia|].
    apply (Hall c (frequency lines c)); [|lia].
    apply (@mapGet_In _ c (frequency lines c) Hnd). rewrite Hget.
    destruct (Nat.eqb_spec (frequency lines c) 0); [contradiction|reflexivity].
  - intros HF. destruct Hres as [Hres|[Hin [H1 _]]].
    + unfold F in HF. rewrite Hres in HF. simpl in HF. lia.
    + split; [exact H1|]. symmetry. apply Hentry.
      unfold N, F. now rewrite <- surjective_pairing.
Qed.

(* ================================================================== *)
(** ** The pattern fallback *)

Lemma patternRows_length (n : nat) (lines : list jsstring) :
  length (Pdf.patternRows n lines) = frequency lines n.
Proof. rewrite patternRows_filterMap, length_map. reflexivity. Qed.

Lemma fallback_accepted (lines : list jsstring) :
  3 <= snd (Pdf.pickMostCommon (Pdf.wordCountMap lines)) ->
  Pdf.fallback lines
  = Pdf.patternRows (fst (Pdf.pickMostCommon (Pdf.wordCountMap lines)))
                    lines /\
  length (Pdf.fallback lines)
  = snd (Pdf.pickMostCommon (Pdf.wordCountMap lines)).
Proof.
  intros HF. destruct (pickMostCommon_spec lines) as [_ Hwin].
  destruct (Hwin ltac:(lia)) as [HN Hfreq].
  assert (E : Pdf.fallback lines
              = Pdf.patternRows
                  (fst (Pdf.pickMostCommon (Pdf.wordCountMap lines))) lines).
  { unfold Pdf.fallback, Pdf.approach2.
    destruct (Pdf.pickMostCommon (Pdf.wordCountMap lines)) as [n f].
    cbn [fst snd] in *. cbv zeta.
    destruct (Nat.leb_spec 3 f); [|lia].
    destruct (Nat.leb_spec 2 n); [|lia]. cbn [andb].
    rewrite patternRows_length.
    destruct (Nat.ltb_spec 0 (frequency lines n)); [reflexivity | lia]. }
  split; [exact E|]. rewrite E, patternRows_length. exact Hfreq.
Qed.

Lemma fallback_rejected (lines : list jsstring) :
  snd (Pdf.pickMostCommon (Pdf.wordCountMap lines)) < 3 ->
  Pdf.fallback lines = [].
Proof.
  intros HF. unfold Pdf.fallback, Pdf.approach2.
  destruct (Pdf.pickMostCommon (Pdf.wordCountMap lines)) as [n f].
  cbn [snd] in HF. destruct (Nat.leb_spec 3 f); [lia | reflexivity].
Qed.

(** C6: the fallback picks a word count N >= 2 whose frequency F over all
    lines is the highest among the word counts >= 2; when F >= 3 it
    returns, in order, one row per line whose word count is N, pairing
    Column1..ColumnN with the words of the line; when F < 3 it returns the
    empty result. *)
Theorem pattern_fallback_rule (lines : list jsstring) :
  let N := fst (Pdf.pickMostCommon (Pdf.wordCountMap lines)) in
  let F := snd (Pdf.pickMostCommon (Pdf.wordCountMap lines)) in
  (forall c, 2 <= c -> frequency lines c <= F) /\
  (0 < F -> 2 <= N /\ frequency lines N = F) /\
  (3 <= F ->
   Pdf.fallback lines
   = map (fun line => combine (Pdf.genericHeaders N) (split_ws1 line))
         (filter (fun line => (Pdf.wordCountOf line =? N)%nat) lines) /\
   forall r, In r (Pdf.fallback lines) ->
             Object_keys r = Pdf.genericHeaders N) /\
  (F < 3 -> Pdf.fallback lines = []).
Proof.
  intros N F. destruct (pickMostCommon_spec lines) as [Hmax Hwin].
  split; [exact Hmax|]. split; [exact Hwin|]. split.
  - intros HF. destruct (fallback_accepted lines HF) as [E _].
    assert (E' : Pdf.fallback lines
                 = map (fun line =>
                          combine (Pdf.genericHeaders N) (split_ws1 line))
                       (filter (fun line =>
                                  (Pdf.wordCountOf line =? N)%nat) lines)).
    { rewrite E, patternRows_filterMap. apply map_ext_in.
      intros line Hin. apply filter_In in Hin. destruct Hin as [_ Hn].
      apply Nat.eqb_eq in Hn. now apply patternRow_columns. }
    split; [exact E'|].
    intros r Hr. rewrite E' in Hr. apply in_map_iff in Hr.
    destruct Hr as [line [<- Hin]]. apply filter_In in Hin.
    destruct Hin as [_ Hn]. apply Nat.eqb_eq in Hn.
    unfold Object_keys. rewrite map_fst_combine.
    unfold Pdf.wordCountOf in Hn. rewrite Hn.
    rewrite firstn_all2 by (now rewrite genericHeaders_length).
    apply order_keys_names. apply genericHeaders_names.
  - apply fallback_rejected.
Qed.

(** Five lines of three words and two lines of one word: five rows under
    Column1, Column2, Column3. *)
Lemma pattern_fallback_rule_witness :
  3 <= snd (Pdf.pickMostCommon
              (Pdf.wordCountMap
                 [js "a b c"; js "x"; js "d e f"; js "g h i"; js "y";
                  js "j k l"; js "m n o"])) /\
  Pdf.fallback [js "a b c"; js "x"; js "d e f"; js "g h i"; js "y";
                js "j k l"; js "m n o"]
  = map (fun line => combine (Pdf.genericHeaders 3) (split_ws1 line))
        [js "a b c"; js "d e f"; js "g h i"; js "j k l"; js "m n o"].
Proof.
  assert (H : 3 <= snd (Pdf.pickMostCommon
                          (Pdf.wordCountMap
                             [js "a b c"; js "x"; js "d e f"; js "g h i";
                              js "y"; js "j k l"; js "m n o"])))
    by (vm_compute; lia).
  split; [exact H|].
  exact (proj1 (proj1 (proj2 (proj2
           (pattern_fallback_rule
              [js "a b c"; js "x"; js "d e f"; js "g h i"; js "y";
               js "j k l"; js "m n o"]))) H)).
Defined.

(** C10: a non-empty result of the fallback has at least three rows; their
    number is the winning frequency, the number of lines whose word count
    is the winning count. *)
Theorem fallback_at_least_three (lines : list jsstring) :
  Pdf.fallback lines <> [] ->
  3 <= length (Pdf.fallback lines) /\
  length (Pdf.fallback lines)
  = snd (Pdf.pickMostCommon (Pdf.wordCountMap lines)) /\
  length (Pdf.fallback lines)
  = frequency lines (fst (Pdf.pickMostCommon (Pdf.wordCountMap lines))).
Proof.
  intros Hne.
  destruct (Nat.lt_ge_cases
              (snd (Pdf.pickMostCommon (Pdf.wordCountMap lines))) 3)
    as [Hlt|Hge].
  - exfalso. apply Hne. now apply fallback_rejected.
  - destruct (fallback_accepted lines Hge) as [E Hlen].
    split; [lia|]. split; [exact Hlen|].
    rewrite E. apply patternRows_length.
Qed.

(** Three lines of two words: three rows. *)
Lemma fallback_at_least_three_witness :
  Pdf.fallback [js "a b"; js "c d"; js "e f"] <> [] /\
  3 <= length (Pdf.fallback [js "a b"; js "c d"; js "e f"]).
Proof.
  assert (H : Pdf.fallback [js "a b"; js "c d"; js "e f"] <> [])
    by (vm_compute; discriminate).
  split; [exact H|].
  exact (proj1 (fallback_at_least_three [js "a b"; js "c d"; js "e f"] H)).
Defined.

(* ================================================================== *)
(** ** The strict extractor *)

Lemma includes1_false (c : codeunit) (s : jsstring) :
  includes1 c s = false <-> ~ In c s.
Proof.
  rewrite <- includes1_In. destruct (includes1 c s); split; congruence.
Qed.

Lemma chooseDelimiter_Chosen (firstLine : jsstring) :
  Chosen firstLine (Text.chooseDelimiter firstLine).
Proof.
  unfold Text.chooseDelimiter.
  destruct (includes1 TAB firstLine) eqn:Et.
  { apply chosen_tab. now apply includes1_In. }
  apply includes1_false in Et.
  destruct (includes1 COMMA firstLine) eqn:Ec.
  { apply chosen_comma; [exact Et | now apply includes1_In]. }
  apply includes1_false in Ec.
  destruct (includes1 SEMICOLON firstLine) eqn:Es.
  { apply chosen_semicolon; [exact Et | exact Ec | now apply includes1_In]. }
  apply includes1_false in Es. now apply chosen_whitespace.
Qed.

Lemma Chosen_unique (firstLine : jsstring) (d d' : Text.Delimiter) :
  Chosen firstLine d -> Chosen firstLine d' -> d = d'.
Proof.
  intros H H'. inversion H; inversion H'; subst;
    first [reflexivity | contradiction].
Qed.

(** C7: the delimiter is a function of the first line alone, chosen in the
    order tab, comma, semicolon, whitespace; the headers are the first
    line's tokens under it, and every later line is split under the same
    delimiter. *)
Theorem clean_single_delimiter (lines : list jsstring) :
  let firstLine := nth 0 lines [] in
  let d := Text.chooseDelimiter firstLine in
  Chosen firstLine d /\
  (forall d', Chosen firstLine d' -> d' = d) /\
  Text.headersOf lines = Text.tokens d firstLine /\
  (1 < length lines ->
   Text.extractLines lines
   = filterMap
       (fun line =>
          if (length (Text.tokens d line)
              =? length (Text.tokens d firstLine))%nat
          then Some (Text.buildRow (Text.tokens d firstLine)
                                   (Text.tokens d line))
          else None)
       (skipn 1 lines)).
Proof.
  intros firstLine d. split; [apply chooseDelimiter_Chosen|].
  split.
  - intros d' H'. exact (Chosen_unique H' (chooseDelimiter_Chosen firstLine)).
  - split; [reflexivity|]. intros Hlen.
    now rewrite (Text_extractLines_filterMap _ Hlen).
Qed.

(** A semicolon file: the semicolon splits the header and both lines. *)
Lemma clean_single_delimiter_witness :
  1 < length [js "x;y"; js "1;2"; js "3 4"] /\
  Text.extractLines [js "x;y"; js "1;2"; js "3 4"]
  = [[(js "x", js "1"); (js "y", js "2")]].
Proof.
  split; [simpl; lia|].
  exact (proj2 (proj2 (proj2
           (clean_single_delimiter [js "x;y"; js "1;2"; js "3 4"])))
         ltac:(simpl; lia)).
Defined.

(** C8: on the clean path a line gives a row exactly when it has as many
    tokens as the header; the rows returned are those of the lines after
    the first, in order; and the text of scenario 2 has the headers a, b,
    c and no row. *)
Theorem clean_exact_count (d : Text.Delimiter) (hs : list jsstring)
  (line : jsstring) :
  ((exists r, Text.rowOfLine d hs line = Some r) <->
   length (Text.tokens d line) = length hs) /\
  (forall lines, 1 < length lines ->
     Text.extractLines lines
     = filterMap (Text.rowOfLine (Text.chooseDelimiter (nth 0 lines []))
                                 (Text.headersOf lines))
                 (skipn 1 lines)) /\
  Text.headersOf (nonBlankLines scenario2) = [js "a"; js "b"; js "c"] /\
  extractTableData clean (inr scenario2) = [].
Proof.
  split; [|split; [|split]].
  - unfold Text.rowOfLine.
    destruct (Nat.eqb_spec (length (Text.tokens d line)) (length hs)); split.
    + intros _. assumption.
    + intros _. eexists. reflexivity.
    + intros [r Hr]. discriminate Hr.
    + contradiction.
  - intros lines Hlen. now apply Text_extractLines_filterMap.
  - reflexivity.
  - reflexivity.
Qed.

(** Under the headers a, b, c a comma line with three fields gives a
    row. *)
Lemma clean_exact_count_witness :
  length (Text.tokens (Text.literal COMMA) (js "7,8,9"))
  = length [js "a"; js "b"; js "c"] /\
  exists r,
    Text.rowOfLine (Text.literal COMMA) [js "a"; js "b"; js "c"]
                   (js "7,8,9") = Some r.
Proof.
  split; [reflexivity|].
  apply (proj2 (proj1 (clean_exact_count (Text.literal COMMA)
                         [js "a"; js "b"; js "c"] (js "7,8,9")))).
  reflexivity.
Defined.

(* ================================================================== *)
(** ** Empty headers *)

Lemma headerTokens_nonempty (d : Pdf.Delimiter) (line : jsstring) :
  ~ In [] (Pdf.headerTokens d line).
Proof.
  unfold Pdf.headerTokens. intros H.
  destruct (trimDropEmpty_spec _ _ H) as [Hne _]. now apply Hne.
Qed.

Lemma whitespace_tokens_nonempty (line : jsstring) :
  ~ In [] (Text.tokens Text.whitespace line).
Proof.
  simpl. rewrite filter_In. intros [_ H]. discriminate H.
Qed.

(** C9 (amended): the headers of the noisy path (chosen header line or
    generic columns) and the headers of the clean path under the
    whitespace delimiter contain no empty string; under a tab, comma or
    semicolon the clean path trims the header fields and keeps every one
    of them, empty or not. *)
Theorem headers_nonempty_unless_literal (o : Origin) (text : jsstring) :
  (o = noisy \/
   Text.chooseDelimiter (nth 0 (nonBlankLines text) []) = Text.whitespace ->
   headers_never_empty o text) /\
  (forall c line,
     Text.tokens (Text.literal c) line = map trim (split_on c line) /\
     length (Text.tokens (Text.literal c) line)
     = S (count_occ N.eq_dec line c)).
Proof.
  split.
  - unfold headers_never_empty, resultHeaders. intros H. destruct o.
    + destruct (Pdf.approach1 (nonBlankLines text)).
      * apply headerTokens_nonempty.
      * apply genericHeaders_nonempty.
    + destruct H as [H|H]; [discriminate|].
      unfold Text.headersOf. cbv zeta. rewrite H.
      apply whitespace_tokens_nonempty.
  - intros c line. split; [reflexivity|].
    simpl. now rewrite length_map, split_on_length.
Qed.

(** The headers Name, Age, City of the first scenario. *)
Lemma headers_nonempty_unless_literal_witness :
  headers_never_empty noisy
    (lines_of [js "Name  Age  City"; js "Alice  30  Paris";
               js "Bob  25  London"]).
Proof.
  apply (proj1 (headers_nonempty_unless_literal noisy
                  (lines_of [js "Name  Age  City"; js "Alice  30  Paris";
                             js "Bob  25  London"]))).
  left. reflexivity.
Defined.

(** C9 as stated fails: a clean comma header with an empty field keeps
    it. *)
Lemma headers_never_empty_fails :
  ~ headers_never_empty clean (lines_of [js "a,,b"; js "1,2,3"]).
Proof. intros H. apply H. vm_compute. right. left. reflexivity. Qed.

(* ================================================================== *)
(** ** Scenarios *)

(** Space-run columns: the first line is the header, two rows follow. *)
Example scenario_space_columns :
  extractTableData noisy
    (inr (js "Name  Age  City" ++ [LF] ++ js "Alice  30  Paris" ++ [LF]
          ++ js "Bob  25  London"))
  = [[(js "Name", js "Alice"); (js "Age", js "30"); (js "City", js "Paris")];
     [(js "Name", js "Bob"); (js "Age", js "25"); (js "City", js "London")]].
Proof. reflexivity. Qed.

(** No delimiter, five lines of three words and two of one word. *)
Example scenario_word_pattern :
  map Object_keys
      (extractTableData noisy
         (inr (lines_of [js "a b c"; js "x"; js "d e f"; js "g h i"; js "y";
                         js "j k l"; js "m n o"])))
  = repeat [js "Column1"; js "Column2"; js "Column3"] 5.
Proof. reflexivity. Qed.

(** A single line gives the empty result on either path. *)
Example scenario_single_line :
  extractTableData noisy (inr (js "Name  Age  City")) = [] /\
  extractTableData clean (inr (js "a,b,c")) = [].
Proof. split; reflexivity. Qed.

(** Under three headers a line of one token or of five tokens gives no
    row. *)
Example tolerance_rejects :
  Pdf.rowOfLine Pdf.comma [js "a"; js "b"; js "c"] (js "1") = None /\
  Pdf.rowOfLine Pdf.comma [js "a"; js "b"; js "c"] (js "1,2,3,4,5") = None.
Proof. split; reflexivity. Qed.

(** Two lines sharing a word count of four do not start the fallback;
    three lines sharing a word count of two do. *)
Example fallback_threshold :
  Pdf.fallback [js "a b c d"; js "e f g h"; js "i"] = [] /\
  length (Pdf.fallback [js "a b"; js "c d"; js "e f"]) = 3.
Proof. split; reflexivity. Qed.

(** A comma line with an empty field keeps its position under the
    tolerant extractor. *)
Example comma_empty_field :
  extractTableData noisy (inr (lines_of [js "a,b,c"; js "1,,3"]))
  = [[(js "a", js "1"); (js "b", js ""); (js "c", js "3")]].
Proof. reflexivity. Qed.

(** Keys that are array indices are enumerated first, in ascending order;
    [__proto__] never becomes a key. *)
Example keys_order :
  Object_keys (assign [(js "b", js "x"); (js "10", js "y");
                       (js "__proto__", js "p"); (js "2", js "z");
                       (js "01", js "w")])
  = [js "2"; js "10"; js "b"; js "01"].
Proof. reflexivity. Qed.

(** The structural split and the two-position loop on a line with leading,
    inner and trailing runs. *)
Example split_agree :
  regexSplit 2 (js "  Name  Age City   ")
  = [js ""; js "Name"; js "Age City"; js ""] /\
  split_ws2 (js "  Name  Age City   ")
  = [js ""; js "Name"; js "Age City"; js ""] /\
  split_ws1 (js " a  b c") = [js ""; js "a"; js "b"; js "c"].
Proof. repeat split; reflexivity. Qed.

(* ================================================================== *)
(** ** The route: dispatch and replies *)

(** For the MIME types of a PDF and of a plain text file the route runs
    the noisy and the clean extraction on what the file delivers. *)
Lemma route_pdf_and_text (w : Route.World) :
  Route.extractTableData w (js "application/pdf")
  = extractTableData noisy (Route.pdfText w) /\
  Route.extractTableData w (js "text/plain")
  = extractTableData clean (Route.textContent w).
Proof. split; reflexivity. Qed.

(** X1: of the eleven supported formats, exactly the two MIME types
    text/comma-separated-values and text/tab-separated-values reach no
    branch of the dispatch: whatever the file holds, their result is
    empty. *)
Theorem supported_formats_without_branch (f : jsstring) :
  In f Route.supportedFormats ->
  ((forall w, Route.extractTableData w f = []) <->
   (f = js "text/comma-separated-values" \/
    f = js "text/tab-separated-values")).
Proof.
  intros Hin. unfold Route.supportedFormats in Hin. simpl in Hin.
  repeat (destruct Hin as [<-|Hin]); try contradiction;
    (split;
     [ intros H;
       first [ left; reflexivity
             | right; reflexivity
             | specialize (H tableWorld); vm_compute in H; discriminate H ]
     | intros [E|E];
       first [ intros w; reflexivity
             | vm_compute in E; discriminate E ] ]).
Qed.

(** A TSV upload never yields a row. *)
Lemma supported_formats_without_branch_witness :
  In (js "text/tab-separated-values") Route.supportedFormats /\
  forall w, Route.extractTableData w (js "text/tab-separated-values") = [].
Proof.
  assert (H : In (js "text/tab-separated-values") Route.supportedFormats)
    by (vm_compute; tauto).
  split; [exact H|].
  apply (proj2 (supported_formats_without_branch H)).
  right. reflexivity.
Defined.

Lemma octet_stream_unsupported :
  Route.isSupportedTableFormat (js "application/octet-stream") = false.
Proof. reflexivity. Qed.

(** X2: when the magic-byte detection throws, or finds nothing and the
    extension lookup throws or finds nothing, the type falls back to
    application/octet-stream and an uploaded file is answered with the
    "not supported" error, without any extraction. *)
Theorem undetected_type_unsupported (w : Route.World) :
  (exists e, Route.magicType w = inl e) \/
  (Route.magicType w = inr None /\
   ((exists e, Route.lookupType w = inl e) \/
    Route.lookupType w = inr None \/ Route.lookupType w = inr (Some []))) ->
  Route.formFile w = inr true ->
  Route.saveFile w = inr tt ->
  Route.unlinkFile w = inr tt ->
  Route.detectFileType w = None /\
  Route.POST w = Route.reply400 Route.unsupportedMessage.
Proof.
  intros Hd Hf Hs Hu.
  assert (Hnone : Route.detectFileType w = None).
  { unfold Route.detectFileType.
    destruct Hd as [[e ->]|[-> [[e ->]|[->| ->]]]]; reflexivity. }
  split; [exact Hnone|].
  unfold Route.POST, Route.mimeTypeOf. rewrite Hf, Hs, Hnone, Hu.
  reflexivity.
Qed.

Lemma undetected_type_unsupported_witness :
  Route.POST (Route.mkWorld (inr true) (inr tt)
                (inl (Exception "EACCES")) (inr None) (inr tt)
                (inr []) (inr []) (inr []) (inr []) (inr []))
  = Route.reply400 Route.unsupportedMessage.
Proof.
  apply (fun H => proj2 (@undetected_type_unsupported
                  (Route.mkWorld (inr true) (inr tt)
                     (inl (Exception "EACCES")) (inr None) (inr tt)
                     (inr []) (inr []) (inr []) (inr []) (inr []))
                  H eq_refl eq_refl eq_refl)).
  left. exists (Exception "EACCES"). reflexivity.
Defined.

(** X3: a reply with status 200 is given only for an uploaded file whose
    detected type is supported and does not start with image/; its table
    is the extraction result for that type, it has at least one row, and
    its headers are the keys of the first row. *)
Theorem success_reply_inversion (w : Route.World) (fileType : jsstring)
  (tableData : list Row) (headers : list jsstring) :
  Route.POST w = Route.reply200 fileType tableData headers ->
  Route.formFile w = inr true /\
  fileType = Route.mimeTypeOf w /\
  Route.isSupportedTableFormat fileType = true /\
  Str.startsWith (js "image/") fileType = false /\
  tableData = Route.extractTableData w fileType /\
  exists row0 rest, tableData = row0 :: rest /\ headers = Object_keys row0.
Proof.
  unfold Route.POST.
  destruct (Route.formFile w) as [e|[|]]; try discriminate.
  destruct (Route.saveFile w) as [e|[]]; try discriminate.
  cbn [tryBind negb]. cbv zeta.
  destruct (Route.isSupportedTableFormat (Route.mimeTypeOf w)) eqn:Hsup;
    cbn [negb].
  2: { destruct (Route.unlinkFile w); discriminate. }
  destruct (Str.startsWith (js "image/") (Route.mimeTypeOf w)) eqn:Himg.
  { destruct (Route.unlinkFile w); discriminate. }
  destruct (Route.unlinkFile w) as [e|[]]; try discriminate.
  cbn [tryBind tryCatch].
  destruct (Route.extractTableData w (Route.mimeTypeOf w))
    as [|row0 rest] eqn:Hdata; try discriminate.
  intros H. injection H as <- <- <-.
  split; [reflexivity|]. split; [reflexivity|]. split; [exact Hsup|].
  split; [exact Himg|]. split; [now rewrite Hdata|].
  exists row0, rest. split; reflexivity.
Qed.

Lemma success_reply_inversion_witness :
  Route.isSupportedTableFormat (js "text/plain") = true /\
  exists row0 rest,
    [[(js "a", js "1"); (js "b", js "2")]] = row0 :: rest /\
    [js "a"; js "b"] = Object_keys row0.
Proof.
  pose proof (@success_reply_inversion
                (Route.mkWorld (inr true) (inr tt)
                   (inr (Some (js "text/plain"))) (inr None) (inr tt)
                   (inr []) (inr []) (inr []) (inr [])
                   (inr (lines_of [js "a,b"; js "1,2"])))
                (js "text/plain")
                [[(js "a", js "1"); (js "b", js "2")]]
                [js "a"; js "b"] eq_refl) as H.
  split; [exact (proj1 (proj2 (proj2 H)))|].
  exact (proj2 (proj2 (proj2 (proj2 (proj2 H))))).
Defined.

Ltac reply_case :=
  cbn [tryBind tryCatch negb];
  split; intros H; try discriminate H; injection H as <-;
  first [ eexists; reflexivity
        | left; reflexivity
        | right; left; reflexivity
        | right; right; left; reflexivity
        | right; right; right; reflexivity ].

(** The error texts of the route. *)
Lemma error_reply_texts (w : Route.World) (e : string) :
  (Route.POST w = Route.reply400 e ->
   e = Route.noFileMessage \/ e = Route.unsupportedMessage \/
   e = Route.imageMessage \/ e = noTableMessage) /\
  (Route.POST w = Route.reply500 e ->
   exists m, e = ("Failed to process the file: " ++ m)%string).
Proof.
  unfold Route.POST.
  destruct (Route.formFile w) as [e0|[|]]; [reply_case| |reply_case].
  destruct (Route.saveFile w) as [e0|[]]; [reply_case|].
  cbn [tryBind negb]. cbv zeta.
  destruct (Route.isSupportedTableFormat (Route.mimeTypeOf w));
    cbn [negb].
  - destruct (Str.startsWith (js "image/") (Route.mimeTypeOf w)).
    + destruct (Route.unlinkFile w) as [e0|[]]; reply_case.
    + destruct (Route.unlinkFile w) as [e0|[]]; [reply_case|].
      destruct (Route.extractTableData w (Route.mimeTypeOf w));
        reply_case.
  - destruct (Route.unlinkFile w) as [e0|[]]; reply_case.
Qed.

(** X4: whatever error reply the route gives, with status 400 or 500, the
    page shows exactly the error text of that reply, never one of its own
    fallback messages. *)
Theorem page_shows_route_error (w : Route.World) (e : string) :
  (Route.POST w = Route.reply400 e ->
   Home.errorMessage (Home.axiosResponse 400 e) = e) /\
  (Route.POST w = Route.reply500 e ->
   Home.errorMessage (Home.axiosResponse 500 e) = e).
Proof.
  destruct (error_reply_texts w e) as [H4 H5]. split.
  - intros H. destruct (H4 H) as [->|[->|[->| ->]]]; reflexivity.
  - intros H. destruct (H5 H) as [m ->]. reflexivity.
Qed.

Lemma page_shows_route_error_witness :
  Home.errorMessage (Home.axiosResponse 400 Route.noFileMessage)
  = Route.noFileMessage.
Proof.
  apply (proj1 (page_shows_route_error
                  (Route.mkWorld (inr false) (inr tt) (inr None) (inr None)
                     (inr tt) (inr []) (inr []) (inr []) (inr []) (inr []))
                  Route.noFileMessage)).
  reflexivity.
Defined.

(* ================================================================== *)
(** ** The page: rows shown and buttons *)


(* ================================================================== *)
(** ** The header search: bounds *)

Lemma tryDelimiter_zero (i : nat) (line : jsstring) (d : Pdf.Delimiter)
  (b : Pdf.Best) :
  (Pdf.bestHeaderCount b = 0 -> Pdf.bestHeaderLine b = 0) ->
  Pdf.bestHeaderCount (Pdf.tryDelimiter i line d b) = 0 ->
  Pdf.bestHeaderLine (Pdf.tryDelimiter i line d b) = 0.
Proof.
  intros Hb. unfold Pdf.tryDelimiter.
  destruct (Pdf.hasDelimiter d line); [|exact Hb].
  destruct (Nat.ltb_spec (Pdf.bestHeaderCount b)
                         (length (Pdf.headerTokens d line)));
    [simpl; lia | exact Hb].
Qed.

Lemma scanLines_zero (ls : list jsstring) (i : nat) (b : Pdf.Best) :
  (Pdf.bestHeaderCount b = 0 -> Pdf.bestHeaderLine b = 0) ->
  Pdf.bestHeaderCount (Pdf.scanLines i ls b) = 0 ->
  Pdf.bestHeaderLine (Pdf.scanLines i ls b) = 0.
Proof.
  revert i b. induction ls as [|line ls IH]; intros i b Hb; simpl;
    [exact Hb|].
  apply IH. unfold Pdf.scanLine.
  apply tryDelimiter_zero, tryDelimiter_zero, tryDelimiter_zero. exact Hb.
Qed.

Lemma candidate_line (lines : list jsstring) (i : nat) (d : Pdf.Delimiter)
  (n : nat) :
  HeaderOrder.candidate (Pdf.potentialHeaderLines lines) i d = Some n ->
  i < Nat.min 5 (length lines) /\
  Pdf.hasDelimiter d (nth i lines []) = true /\
  n = length (Pdf.headerTokens d (nth i lines [])).
Proof.
  unfold HeaderOrder.candidate, Pdf.potentialHeaderLines.
  rewrite nth_error_firstn.
  destruct (Nat.ltb_spec i (Nat.min 5 (length lines))) as [Hi|Hi];
    [|discriminate].
  destruct (nth_error lines i) as [line|] eqn:E; [|discriminate].
  rewrite (nth_error_nth lines i [] E).
  destruct (Pdf.hasDelimiter d line); [|discriminate].
  intros H. injection H as <-. auto.
Qed.

(** X6: the header search always ends on a line index below five that,
    for a non-empty line sequence, is an index of the sequence; and when
    it found a candidate, the chosen line holds the chosen delimiter and
    the headers recomputed from it are as many as the count the search
    kept. *)
Theorem chosen_header_in_bounds (lines : list jsstring) :
  let b := Pdf.detectHeader lines in
  Pdf.bestHeaderLine b < 5 /\
  (lines <> [] -> Pdf.bestHeaderLine b < length lines) /\
  (0 < Pdf.bestHeaderCount b ->
   Pdf.hasDelimiter (Pdf.bestDelimiter b)
                    (nth (Pdf.bestHeaderLine b) lines []) = true /\
   length (Pdf.chosenHeaders lines) = Pdf.bestHeaderCount b).
Proof.
  intros b.
  destruct (detectHeader_searched lines) as [_ Hwin]. fold b in Hwin.
  destruct (Nat.eq_dec (Pdf.bestHeaderCount b) 0) as [Hz|Hnz].
  - assert (H0 : Pdf.bestHeaderLine b = 0).
    { apply scanLines_zero; [reflexivity | exact Hz]. }
    rewrite H0. split; [lia|]. split; [|lia].
    destruct lines; [congruence | simpl; lia].
  - destruct (Hwin ltac:(lia)) as [Hc _].
    apply candidate_line in Hc. destruct Hc as [Hi [Hd Hn]].
    split; [lia|]. split; [lia|]. intros _. split; [exact Hd|].
    unfold Pdf.chosenHeaders. cbv zeta. fold b. now rewrite <- Hn.
Qed.

Lemma chosen_header_in_bounds_witness :
  [js "Report"; js "a,b,c"; js "1,2,3"] <> [] /\
  Pdf.bestHeaderLine
    (Pdf.detectHeader [js "Report"; js "a,b,c"; js "1,2,3"]) < 3.
Proof.
  assert (H : [js "Report"; js "a,b,c"; js "1,2,3"] <> [])
    by discriminate.
  split; [exact H|].
  exact (proj1 (proj2 (chosen_header_in_bounds
                         [js "Report"; js "a,b,c"; js "1,2,3"])) H).
Defined.

(* ================================================================== *)
(** ** How many rows a text can give *)

Lemma filterMap_length {A B : Type} (f : A -> option B) (l : list A) :
  length (filterMap f l) <= length l.
Proof.
  induction l as [|a l IH]; simpl; [lia|].
  destruct (f a); simpl; lia.
Qed.

Lemma frequency_le (lines : list jsstring) (c : nat) :
  frequency lines c <= length lines.
Proof. unfold frequency. apply filter_length_le. Qed.

Lemma fallback_length (lines : list jsstring) :
  length (Pdf.fallback lines) <= length lines.
Proof.
  destruct (Nat.lt_ge_cases
              (snd (Pdf.pickMostCommon (Pdf.wordCountMap lines))) 3)
    as [Hlt|Hge].
  - rewrite fallback_rejected by exact Hlt. simpl. lia.
  - destruct (fallback_accepted lines Hge) as [E _].
    rewrite E, patternRows_length. apply frequency_le.
Qed.

Lemma approach1_length (lines : list jsstring) (rows : list Row) :
  Pdf.approach1 lines = Some rows ->
  0 < length rows /\
  length rows + Pdf.bestHeaderLine (Pdf.detectHeader lines) + 1
  <= length lines.
Proof.
  intros H. pose proof (approach1_rows _ H) as E.
  assert (Hpos : 0 < length rows).
  { unfold Pdf.approach1 in H. cbv zeta in H.
    destruct (2 <=? Pdf.bestHeaderCount (Pdf.detectHeader lines))%nat;
      [|discriminate].
    match type of H with
    | context [(0 <? length ?x)%nat] =>
        destruct (Nat.ltb_spec 0 (length x)); [|discriminate]
    end.
    injection H as <-. assumption. }
  split; [exact Hpos|].
  assert (Hle : length rows
                <= length lines
                   - S (Pdf.bestHeaderLine (Pdf.detectHeader lines))).
  { rewrite E, dataRows_filterMap, <- length_skipn.
    apply filterMap_length. }
  lia.
Qed.

Lemma Text_extractLines_length (lines : list jsstring) :
  length (Text.extractLines lines) <= length lines - 1.
Proof.
  destruct (Nat.lt_ge_cases 1 (length lines)) as [Hl|Hl].
  - rewrite (Text_extractLines_filterMap _ Hl), <- length_skipn.
    apply filterMap_length.
  - unfold Text.extractLines.
    destruct (Nat.ltb_spec 1 (length lines)); [lia | simpl; lia].
Qed.

(** X7: an extraction never returns more rows than the text has
    non-blank lines; on the clean path the first line is never a row;
    and when the tolerant extractor returns rows, the header line and the
    lines before it are not among them. *)
Theorem rows_bounded_by_lines (o : Origin) (text : jsstring) :
  length (extractTableData o (inr text)) <= length (nonBlankLines text) /\
  (o = clean ->
   length (extractTableData o (inr text))
   <= length (nonBlankLines text) - 1) /\
  (forall rows, Pdf.approach1 (nonBlankLines text) = Some rows ->
     length rows
     + Pdf.bestHeaderLine (Pdf.detectHeader (nonBlankLines text)) + 1
     <= length (nonBlankLines text)).
Proof.
  split; [|split].
  - destruct o;
      unfold extractTableData, extractBody, tryCatch, tryBind,
             Pdf.extract, Text.extract; cbv beta iota.
    + unfold Pdf.extractLines.
      destruct (1 <? length (nonBlankLines text))%nat; [|simpl; lia].
      destruct (Pdf.approach1 (nonBlankLines text)) as [rows|] eqn:E1.
      * destruct (approach1_length _ E1). lia.
      * apply fallback_length.
    + pose proof (Text_extractLines_length (nonBlankLines text)). lia.
  - intros ->. apply Text_extractLines_length.
  - intros rows H. exact (proj2 (approach1_length _ H)).
Qed.

Lemma rows_bounded_by_lines_witness :
  length (extractTableData clean (inr (lines_of [js "a,b"; js "1,2"])))
  <= length (nonBlankLines (lines_of [js "a,b"; js "1,2"])) - 1.
Proof.
  exact (proj1 (proj2 (rows_bounded_by_lines clean
                         (lines_of [js "a,b"; js "1,2"]))) eq_refl).
Defined.

(** X8: with fewer than three non-blank lines the pattern fallback
    returns nothing, so the noisy path gives at most one row. *)
Theorem short_text_bound (lines : list jsstring) :
  length lines < 3 ->
  Pdf.fallback lines = [] /\ length (Pdf.extractLines lines) <= 1.
Proof.
  intros Hlen.
  assert (Hf : Pdf.fallback lines = []).
  { apply fallback_rejected.
    destruct (pickMostCommon_spec lines) as [_ Hwin].
    destruct (Nat.eq_dec
                (snd (Pdf.pickMostCommon (Pdf.wordCountMap lines))) 0)
      as [->|Hnz]; [lia|].
    destruct (Hwin ltac:(lia)) as [_ <-].
    pose proof (frequency_le lines
                  (fst (Pdf.pickMostCommon (Pdf.wordCountMap lines)))).
    lia. }
  split; [exact Hf|]. unfold Pdf.extractLines.
  destruct (1 <? length lines)%nat; [|simpl; lia].
  destruct (Pdf.approach1 lines) as [rows|] eqn:E1.
  - destruct (approach1_length _ E1). lia.
  - rewrite Hf. simpl. lia.
Qed.

Lemma short_text_bound_witness :
  length [js "a  b"; js "1  2"] < 3 /\
  length (Pdf.extractLines [js "a  b"; js "1  2"]) <= 1.
Proof.
  assert (H : length [js "a  b"; js "1  2"] < 3) by (simpl; lia).
  split; [exact H|].
  exact (proj2 (short_text_bound [js "a  b"; js "1  2"] H)).
Defined.

(* ================================================================== *)
(** ** Lines *)

Lemma cons_hd_app (c : codeunit) (ts us : list jsstring) :
  ts <> [] -> cons_hd c (ts ++ us) = cons_hd c ts ++ us.
Proof. destruct ts; [congruence | reflexivity]. Qed.

Lemma split_on_app (c : codeunit) (a b : jsstring) :
  split_on c (a ++ c :: b) = split_on c a ++ split_on c b.
Proof.
  induction a as [|x a IH]; simpl.
  - now rewrite N.eqb_refl.
  - rewrite IH. destruct (x =? c)%N; [reflexivity|].
    apply cons_hd_app, split_on_nonempty.
Qed.

Lemma cons_hd_In (c : codeunit) (ts : list jsstring) (t : jsstring) :
  In t (cons_hd c ts) ->
  (exists t0, t = c :: t0 /\ (ts = [] /\ t0 = [] \/ In t0 ts)) \/ In t ts.
Proof.
  destruct ts as [|t0 ts]; simpl.
  - intros [<-|[]]. left. exists []. auto.
  - intros [<-|H]; [|auto]. left. exists t0. auto.
Qed.

Lemma split_on_no_sep (c : codeunit) (s t : jsstring) :
  In t (split_on c s) -> ~ In c t.
Proof.
  revert t. induction s as [|x s IH]; simpl; intros t.
  - intros [<-|[]] [].
  - destruct (N.eqb_spec x c) as [->|Hne].
    + intros [<-|H]; [intros [] | now apply IH].
    + intros H. apply cons_hd_In in H.
      destruct H as [[t0 [-> [[E _]|H]]]|H].
      * exfalso. exact (split_on_nonempty c s E).
      * intros [E|Hin]; [congruence | exact (IH _ H Hin)].
      * now apply IH.
Qed.

(** X9: every line kept from a text is non-blank and holds no line feed,
    and the lines of two texts joined by a line feed are the lines of the
    first followed by the lines of the second. *)
Theorem nonBlankLines_compose (a b : jsstring) :
  Forall (fun line => trim line <> [] /\ ~ In LF line) (nonBlankLines a) /\
  nonBlankLines (a ++ LF :: b) = nonBlankLines a ++ nonBlankLines b.
Proof.
  split.
  - apply Forall_forall. intros line Hin. unfold nonBlankLines in Hin.
    apply filter_In in Hin. destruct Hin as [Hin Hnb]. split.
    + destruct (trim line); [discriminate | discriminate].
    + exact (split_on_no_sep _ _ _ Hin).
  - unfold nonBlankLines. now rewrite split_on_app, filter_app.
Qed.

(* ================================================================== *)
(** ** What the cells of the clean path hold *)

Lemma dropWhile_In (p : codeunit -> bool) (s : jsstring) (x : codeunit) :
  In x (dropWhile p s) -> In x s.
Proof.
  induction s as [|c s IH]; simpl; [tauto|].
  destruct (p c); [auto | tauto].
Qed.

Lemma trim_In (s : jsstring) (x : codeunit) : In x (trim s) -> In x s.
Proof.
  unfold trim. intros H. apply in_rev in H. apply dropWhile_In in H.
  apply in_rev in H. exact (dropWhile_In _ _ _ H).
Qed.

Lemma split_runs_no_ws (sk : bool) (s t : jsstring) :
  In t (split_runs 1 sk s) -> Forall (fun u => is_ws u = false) t.
Proof.
  revert sk t. induction s as [|c s IH]; intros sk t; simpl.
  - intros [<-|[]]. constructor.
  - destruct (is_ws c) eqn:Ec; simpl.
    + destruct sk; simpl.
      * apply IH.
      * intros [<-|H]; [constructor | exact (IH _ _ H)].
    + rewrite andb_false_r. intros H. apply cons_hd_In in H.
      destruct H as [[t0 [-> [[_ ->]|H]]]|H].
      * constructor; [exact Ec | constructor].
      * constructor; [exact Ec | exact (IH _ _ H)].
      * exact (IH _ _ H).
Qed.

Lemma replaceProp_In (k0 v0 : jsstring) (r : Row) (k v : jsstring) :
  In (k, v) (replaceProp k0 v0 r) -> In (k, v) r \/ (k, v) = (k0, v0).
Proof.
  induction r as [|[k' v'] r IH]; simpl; [tauto|].
  destruct (str_eqb k0 k') eqn:E; simpl.
  - apply str_eqb_eq in E. subst k'. intros [H|H]; [right|left; right];
      congruence.
  - intros [H|H]; [auto|]. destruct (IH H); auto.
Qed.

Lemma rowSet_In (r : Row) (k0 v0 k v : jsstring) :
  In (k, v) (rowSet r k0 v0) -> In (k, v) r \/ (k, v) = (k0, v0).
Proof.
  unfold rowSet. destruct (str_eqb k0 proto_key); [auto|].
  destruct (hasProp k0 r).
  - apply replaceProp_In.
  - rewrite in_app_iff. simpl. intuition.
Qed.

Lemma fold_rowSet_In (kvs : list (jsstring * jsstring)) (r : Row)
  (k v : jsstring) :
  In (k, v) (fold_left (fun row kv => rowSet row (fst kv) (snd kv)) kvs r) ->
  In (k, v) r \/ In (k, v) kvs.
Proof.
  revert r. induction kvs as [|[k0 v0] kvs IH]; intros r; simpl; [auto|].
  intros H. destruct (IH _ H) as [H1|H1]; [|auto].
  destruct (rowSet_In _ _ _ _ _ H1) as [H2|H2]; auto.
Qed.

Lemma assign_In (kvs : list (jsstring * jsstring)) (k v : jsstring) :
  In (k, v) (assign kvs) -> In (k, v) kvs.
Proof.
  intros H. destruct (fold_rowSet_In _ _ _ _ H) as [[]|H1]; exact H1.
Qed.

Lemma Text_rowOfLine_cells (d : Text.Delimiter) (hs : list jsstring)
  (line : jsstring) (r : Row) (k v : jsstring) :
  Text.rowOfLine d hs line = Some r -> In (k, v) r ->
  In k hs /\ In v (Text.tokens d line).
Proof.
  unfold Text.rowOfLine.
  destruct (Nat.eqb_spec (length (Text.tokens d line)) (length hs))
    as [He|]; [|discriminate].
  intros H. injection H as <-. rewrite Text_buildRow_assign by exact He.
  intros Hin. apply assign_In in Hin. split.
  - exact (in_combine_l _ _ _ _ Hin).
  - exact (in_combine_r _ _ _ _ Hin).
Qed.

Lemma Text_tokens_literal (c : codeunit) (line t : jsstring) :
  In t (Text.tokens (Text.literal c) line) -> ~ In c t /\ trimmed t.
Proof.
  simpl. rewrite in_map_iff. intros [x [<- Hx]]. split.
  - intros H. apply trim_In in H. exact (split_on_no_sep _ _ _ Hx H).
  - apply trim_trimmed.
Qed.

Lemma Text_tokens_whitespace (line t : jsstring) :
  In t (Text.tokens Text.whitespace line) ->
  t <> [] /\ Forall (fun u => is_ws u = false) t.
Proof.
  simpl. rewrite filter_In. intros [Hin Hne]. split.
  - intros ->. discriminate Hne.
  - exact (split_runs_no_ws _ _ _ Hin).
Qed.

Lemma Text_extractLines_In (lines : list jsstring) (r : Row) :
  In r (Text.extractLines lines) ->
  exists line,
    In line (skipn 1 lines) /\
    Text.rowOfLine (Text.chooseDelimiter (nth 0 lines []))
                   (Text.headersOf lines) line = Some r.
Proof.
  destruct (Nat.lt_ge_cases 1 (length lines)) as [Hl|Hl].
  - rewrite (Text_extractLines_filterMap _ Hl). apply filterMap_In.
  - unfold Text.extractLines.
    destruct (Nat.ltb_spec 1 (length lines)); [lia | intros []].
Qed.

(** X10: on the clean path, under a tab, comma or semicolon no header and
    no cell of a row contains the delimiter, and all are trimmed; under
    the whitespace delimiter no header and no cell is empty or contains a
    whitespace character. *)
Theorem clean_cells_free_of_delimiter (lines : list jsstring) (r : Row)
  (k v : jsstring) :
  In r (Text.extractLines lines) -> In (k, v) r ->
  match Text.chooseDelimiter (nth 0 lines []) with
  | Text.literal c => ~ In c k /\ ~ In c v /\ trimmed k /\ trimmed v
  | Text.whitespace =>
      k <> [] /\ v <> [] /\
      Forall (fun u => is_ws u = false) k /\
      Forall (fun u => is_ws u = false) v
  end.
Proof.
  intros Hr Hkv. apply Text_extractLines_In in Hr.
  destruct Hr as [line [_ Hrow]].
  destruct (Text_rowOfLine_cells _ _ _ _ _ Hrow Hkv) as [Hk Hv].
  unfold Text.headersOf in Hk. cbv zeta in Hk.
  destruct (Text.chooseDelimiter (nth 0 lines [])) as [c|].
  - destruct (Text_tokens_literal _ _ _ Hk), (Text_tokens_literal _ _ _ Hv).
    auto.
  - destruct (Text_tokens_whitespace _ _ Hk),
             (Text_tokens_whitespace _ _ Hv).
    auto.
Qed.

Lemma clean_cells_free_of_delimiter_witness :
  ~ In COMMA (js "x y") /\ ~ In COMMA (js "1") /\
  trimmed (js "x y") /\ trimmed (js "1").
Proof.
  apply (@clean_cells_free_of_delimiter
           [js " x y , z"; js "1, 2"]
           [(js "x y", js "1"); (js "z", js "2")] (js "x y") (js "1")).
  - left. reflexivity.
  - left. reflexivity.
Defined.

(** X11: the lines are not trimmed before they are split into words: a
    line that begins with whitespace gets an empty first word and counts
    one word more than the same line without its leading whitespace. *)
Theorem leading_whitespace_counts_a_word (c : codeunit) (s : jsstring) :
  is_ws c = true ->
  split_ws1 (c :: s) = [] :: split_ws1 (dropWhile is_ws (c :: s)) /\
  Pdf.wordCountOf (c :: s) = S (Pdf.wordCountOf (dropWhile is_ws (c :: s))).
Proof.
  intros Hc.
  assert (Hskip : forall t, skipn (ws_run t) t = dropWhile is_ws t).
  { induction t as [|x t IH]; simpl; [reflexivity|].
    destruct (is_ws x); [exact IH | reflexivity]. }
  assert (E : split_ws1 (c :: s)
              = [] :: split_ws1 (dropWhile is_ws (c :: s))).
  { unfold split_ws1. simpl. rewrite Hc. simpl.
    now rewrite split_runs_skip, Hskip. }
  split; [exact E|]. unfold Pdf.wordCountOf. now rewrite E.
Qed.

Lemma leading_whitespace_counts_a_word_witness :
  Pdf.wordCountOf (js " a b") = 3.
Proof.
  exact (proj2 (@leading_whitespace_counts_a_word SPACE (js "a b")
                  eq_refl)).
Defined.

Lemma fold_addKey_length (l ks : list jsstring) :
  length (fold_left addKey l ks) <= length ks + length l.
Proof.
  revert ks. induction l as [|k l IH]; intros ks; simpl; [lia|].
  specialize (IH (addKey ks k)).
  assert (length (addKey ks k) <= S (length ks)).
  { unfold addKey. destruct (str_eqb k proto_key); [lia|].
    destruct (existsb (str_eqb k) ks); [lia|].
    rewrite length_app. simpl. lia. }
  lia.
Qed.

(** X12: on the clean path a row never has more entries than there are
    headers; and when the headers are pairwise distinct and none is
    __proto__, every row pairs each header with the token at its
    position, so no cell is lost. *)
Theorem clean_rows_keep_every_cell (lines : list jsstring) :
  let d := Text.chooseDelimiter (nth 0 lines []) in
  let hs := Text.headersOf lines in
  (forall r, In r (Text.extractLines lines) -> length r <= length hs) /\
  (NoDup hs -> ~ In proto_key hs ->
   Text.extractLines lines
   = map (fun line => combine hs (Text.tokens d line))
         (filter (fun line =>
                    (length (Text.tokens d line) =? length hs)%nat)
                 (skipn 1 lines))).
Proof.
  intros d hs. split.
  - intros r Hr. apply Text_extractLines_In in Hr.
    destruct Hr as [line [_ Hrow]].
    apply Text_rowOfLine_keys in Hrow.
    rewrite <- (length_map fst r), Hrow.
    exact (fold_addKey_length hs []).
  - intros Hnd Hp.
    destruct (Nat.lt_ge_cases 1 (length lines)) as [Hl|Hl].
    + rewrite (Text_extractLines_filterMap _ Hl).
      fold d. fold hs. unfold Text.rowOfLine.
      rewrite (filterMap_length_filter
                 (fun line => (length (Text.tokens d line) =? length hs)%nat)
                 (fun line => Text.buildRow hs (Text.tokens d line))).
      apply map_ext_in. intros line Hin. apply filter_In in Hin.
      destruct Hin as [_ He]. apply Nat.eqb_eq in He.
      rewrite Text_buildRow_assign by exact He.
      assert (Hk : map fst (combine hs (Text.tokens d line)) = hs).
      { rewrite map_fst_combine, He. apply firstn_all. }
      apply assign_fresh; now rewrite Hk.
    + unfold Text.extractLines.
      destruct (Nat.ltb_spec 1 (length lines)); [lia|].
      now rewrite skipn_all2 by lia.
Qed.

Lemma clean_rows_keep_every_cell_witness :
  Text.extractLines [js "a;b"; js "1;2"; js "3"]
  = [[(js "a", js "1"); (js "b", js "2")]].
Proof.
  apply (proj2 (clean_rows_keep_every_cell [js "a;b"; js "1;2"; js "3"])).
  - repeat constructor; simpl; intuition discriminate.
  - simpl. intuition discriminate.
Defined.

(* ================================================================== *)
(** ** The DOCX parser *)

Lemma stripTags_In (b : bool) (s : jsstring) (x : codeunit) :
  In x (Docx.stripTags b s) -> In x s.
Proof.
  revert b. induction s as [|c s IH]; intros b; simpl; [tauto|].
  destruct b.
  - destruct (c =? Docx.GT)%N; intros H; right; exact (IH _ H).
  - destruct ((c =? Docx.LT)%N && includes1 Docx.GT s).
    + intros H. right. exact (IH _ H).
    + intros [H|H]; [now left | right; exact (IH _ H)].
Qed.

Lemma includes1_stripTags (b : bool) (s : jsstring) :
  includes1 Docx.GT s = false ->
  includes1 Docx.GT (Docx.stripTags b s) = false.
Proof.
  rewrite !includes1_false. intros H Hin. apply H.
  exact (stripTags_In _ _ _ Hin).
Qed.

Lemma hasTag_stripTags (b : bool) (s : jsstring) :
  hasTag (Docx.stripTags b s) = false.
Proof.
  revert b. induction s as [|c s IH]; intros b; simpl; [reflexivity|].
  destruct b.
  - destruct (c =? Docx.GT)%N; apply IH.
  - destruct ((c =? Docx.LT)%N && includes1 Docx.GT s) eqn:E; [apply IH|].
    simpl. rewrite IH, orb_false_r.
    destruct (c =? Docx.LT)%N; [|reflexivity]. simpl in *.
    now apply includes1_stripTags.
Qed.

Lemma hasTag_prefix (a b : jsstring) :
  hasTag (a ++ b) = false -> hasTag a = false.
Proof.
  induction a as [|c a IH]; simpl; [reflexivity|].
  rewrite !orb_false_iff. intros [H1 H2]. split; [|now apply IH].
  destruct (c =? Docx.LT)%N; [|reflexivity]. simpl in *.
  unfold includes1 in *. rewrite existsb_app in H1.
  now apply orb_false_iff in H1.
Qed.

Lemma hasTag_dropWhile (p : codeunit -> bool) (s : jsstring) :
  hasTag s = false -> hasTag (dropWhile p s) = false.
Proof.
  induction s as [|c s IH]; simpl; [reflexivity|].
  intros H. destruct (p c); [|exact H].
  apply IH. now apply orb_false_iff in H.
Qed.

Lemma dropWhile_suffix (p : codeunit -> bool) (s : jsstring) :
  exists pre, s = pre ++ dropWhile p s.
Proof.
  induction s as [|c s [pre IH]]; simpl; [now exists []|].
  destruct (p c); [|now exists []].
  exists (c :: pre). simpl. now rewrite <- IH.
Qed.

Lemma hasTag_trim (s : jsstring) : hasTag s = false -> hasTag (trim s) = false.
Proof.
  intros H. apply (hasTag_dropWhile is_ws) in H.
  destruct (dropWhile_suffix is_ws (rev (dropWhile is_ws s))) as [pre E].
  apply (f_equal (@rev codeunit)) in E.
  rewrite rev_involutive, rev_app_distr in E. fold (trim s) in E.
  rewrite E in H. exact (hasTag_prefix _ _ H).
Qed.

Lemma clean_spec (x : jsstring) :
  hasTag (Docx.clean x) = false /\ trimmed (Docx.clean x).
Proof.
  unfold Docx.clean. split.
  - apply hasTag_trim, hasTag_stripTags.
  - apply trim_trimmed.
Qed.

Lemma headersOf_spec (ms : list Docx.HeaderMatch) (hs : list jsstring) :
  Docx.headersOf ms = inr hs ->
  length hs = length ms /\ forall h, In h hs -> exists x, h = Docx.clean x.
Proof.
  revert hs. induction ms as [|m ms IH]; intros hs; simpl.
  - intros H. injection H as <-. split; [reflexivity | intros h []].
  - destruct (Docx.headerOf m) as [e|h0] eqn:Eh; [discriminate|].
    cbn [tryBind].
    destruct (Docx.headersOf ms) as [e|hs0]; [discriminate|].
    cbn [tryBind]. intros H. injection H as <-.
    destruct (IH hs0 eq_refl) as [Hlen Hall]. split; [simpl; lia|].
    intros h [<-|Hin]; [|now apply Hall].
    destruct m as [g|g]; simpl in Eh.
    + destruct (Str.truthy g); [|discriminate].
      injection Eh as <-. now exists g.
    + injection Eh as <-. now exists g.
Qed.

Lemma headersOf_throws (ms : list Docx.HeaderMatch) :
  In (Docx.thMatch []) ms -> exists e, Docx.headersOf ms = inl e.
Proof.
  induction ms as [|m ms IH]; simpl; [intros []|].
  intros [->|Hin].
  - simpl. eexists. reflexivity.
  - destruct (Docx.headerOf m) as [e|h0]; [now exists e|].
    cbn [tryBind]. destruct (IH Hin) as [e ->]. now exists e.
Qed.

Lemma combine_map_r {A B C : Type} (g : B -> C) (l : list A) (cs : list B) :
  combine l (map g cs) = map (fun p => (fst p, g (snd p))) (combine l cs).
Proof.
  revert cs. induction l as [|a l IH]; intros cs; simpl; [reflexivity|].
  destruct cs; simpl; [reflexivity | now rewrite IH].
Qed.

Lemma Docx_buildRow_assign (hs cells : list jsstring) :
  length cells = length hs ->
  Docx.buildRow hs cells = assign (combine hs (map Docx.clean cells)).
Proof.
  intros Hlen.
  rewrite <- (patternRow_assign hs (map Docx.clean cells))
    by (now rewrite length_map).
  unfold Docx.buildRow, Pdf.patternRow.
  rewrite length_map, combine_map_r, fold_left_map. reflexivity.
Qed.

Lemma Docx_rowOf_spec (hs : list jsstring) (rowHtml : jsstring) (r : Row) :
  Docx.rowOf hs rowHtml = Some r ->
  length (Docx.scan Docx.cellMatcher 0 rowHtml) = length hs /\
  r = assign (combine hs (map Docx.clean
                              (Docx.scan Docx.cellMatcher 0 rowHtml))).
Proof.
  unfold Docx.rowOf. cbv zeta.
  destruct (Nat.eqb_spec (length (Docx.scan Docx.cellMatcher 0 rowHtml))
                         (length hs)) as [He|]; [|discriminate].
  cbn [negb]. intros H. injection H as <-.
  split; [exact He | now apply Docx_buildRow_assign].
Qed.

(** What a table that does not throw contributes. *)
Lemma tableRows_spec (t : jsstring) (rows : list Row) :
  Docx.tableRows t = inr rows ->
  rows = [] \/
  exists hs,
    Docx.headersOf
      (Docx.scan Docx.headerMatcher 0
                 (nth 0 (Docx.scan Docx.rowMatcher 0 t) [])) = inr hs /\
    hs <> [] /\
    rows = filterMap (Docx.rowOf hs)
                     (skipn 1 (Docx.scan Docx.rowMatcher 0 t)).
Proof.
  unfold Docx.tableRows. cbv zeta.
  destruct (length (Docx.scan Docx.rowMatcher 0 t) <? 2)%nat.
  { intros H. injection H as <-. now left. }
  destruct (Nat.eqb_spec
              (length (Docx.scan Docx.headerMatcher 0
                         (nth 0 (Docx.scan Docx.rowMatcher 0 t) []))) 0)
    as [Hz|Hnz].
  { intros H. injection H as <-. now left. }
  destruct (Docx.headersOf
              (Docx.scan Docx.headerMatcher 0
                         (nth 0 (Docx.scan Docx.rowMatcher 0 t) [])))
    as [e|hs] eqn:Eh; [discriminate|].
  cbn [tryBind]. intros H. injection H as <-. right. exists hs.
  split; [reflexivity|]. split.
  - destruct (headersOf_spec _ Eh) as [Hlen _].
    intros ->. simpl in Hlen. lia.
  - now rewrite push_fold.
Qed.

Lemma tableRows_length (t : jsstring) (rows : list Row) :
  Docx.tableRows t = inr rows -> length rows <= dataRowCount t.
Proof.
  intros H. destruct (tableRows_spec _ H) as [->|[hs [_ [_ ->]]]].
  - simpl. lia.
  - unfold dataRowCount. rewrite <- length_skipn. apply filterMap_length.
Qed.

Lemma tableRows_keys (t : jsstring) (rows : list Row) :
  Docx.tableRows t = inr rows -> rows_share_keys rows.
Proof.
  intros H. destruct (tableRows_spec _ H) as [->|[hs [_ [_ ->]]]].
  - intros r1 r2 [].
  - assert (Hk : forall r,
               In r (filterMap (Docx.rowOf hs)
                       (skipn 1 (Docx.scan Docx.rowMatcher 0 t))) ->
               map fst r = assignedKeys hs).
    { intros r Hr. apply filterMap_In in Hr. destruct Hr as [x [_ Hx]].
      apply Docx_rowOf_spec in Hx. destruct Hx as [Hlen ->].
      rewrite assign_keys, map_fst_combine, length_map, Hlen.
      now rewrite firstn_all. }
    intros r1 r2 H1 H2. unfold Object_keys.
    now rewrite (Hk _ H1), (Hk _ H2).
Qed.

Lemma tableRows_cells (t : jsstring) (rows : list Row) (r : Row)
  (k v : jsstring) :
  Docx.tableRows t = inr rows -> In r rows -> In (k, v) r ->
  (exists x, k = Docx.clean x) /\ (exists y, v = Docx.clean y).
Proof.
  intros H Hr Hkv.
  destruct (tableRows_spec _ H) as [->|[hs [Eh [_ ->]]]]; [destruct Hr|].
  apply filterMap_In in Hr. destruct Hr as [x [_ Hx]].
  apply Docx_rowOf_spec in Hx. destruct Hx as [_ ->].
  apply assign_In in Hkv. split.
  - apply in_combine_l in Hkv.
    exact (proj2 (headersOf_spec _ Eh) _ Hkv).
  - apply in_combine_r in Hkv. apply in_map_iff in Hkv.
    destruct Hkv as [y [<- _]]. now exists y.
Qed.

Lemma tablesLoop_In (ts : list jsstring) (acc res : list Row) (r : Row) :
  Docx.tablesLoop ts acc = inr res -> In r res ->
  In r acc \/
  exists t rows, In t ts /\ Docx.tableRows t = inr rows /\ In r rows.
Proof.
  revert acc. induction ts as [|t ts IH]; intros acc; simpl.
  - intros H. injection H as <-. auto.
  - destruct (Docx.tableRows t) as [e|rows] eqn:Et; [discriminate|].
    cbn [tryBind]. intros H Hr.
    destruct (IH _ H Hr) as [Hacc|[t' [rows' [Hin [Ht' Hr']]]]].
    + apply in_app_or in Hacc. destruct Hacc as [Ha|Ha]; [now left|].
      right. exists t, rows. auto.
    + right. exists t', rows'. auto.
Qed.

Lemma tablesLoop_length (ts : list jsstring) (acc res : list Row) :
  Docx.tablesLoop ts acc = inr res ->
  length res <= length acc + list_sum (map dataRowCount ts).
Proof.
  revert acc. induction ts as [|t ts IH]; intros acc; simpl.
  - intros H. injection H as <-. lia.
  - destruct (Docx.tableRows t) as [e|rows] eqn:Et; [discriminate|].
    cbn [tryBind]. intros H. apply IH in H.
    rewrite length_app in H. pose proof (tableRows_length _ Et). lia.
Qed.

Lemma tablesLoop_throws (ts : list jsstring) (acc : list Row) (t : jsstring)
  (e : Thrown) :
  In t ts -> Docx.tableRows t = inl e ->
  exists e', Docx.tablesLoop ts acc = inl e'.
Proof.
  revert acc. induction ts as [|t0 ts IH]; intros acc; simpl; [intros []|].
  intros [->|Hin] He.
  - rewrite He. now exists e.
  - destruct (Docx.tableRows t0) as [e0|rows]; [now exists e0|].
    cbn [tryBind]. now apply IH.
Qed.

Lemma extractDocxTables_In (html : Try jsstring) (r : Row) :
  In r (Docx.extractDocxTables html) ->
  exists h t rows,
    html = inr h /\ In t (Docx.scan Docx.tableMatcher 0 h) /\
    Docx.tableRows t = inr rows /\ In r rows.
Proof.
  unfold Docx.extractDocxTables. destruct html as [e|h]; [intros []|].
  cbn [tryBind].
  destruct (Docx.tablesLoop (Docx.scan Docx.tableMatcher 0 h) [])
    as [e|res] eqn:El; [intros []|].
  cbn [tryCatch]. intros Hr.
  destruct (tablesLoop_In _ _ _ El Hr) as [[]|[t [rows [Hin [Ht Hrows]]]]].
  exists h, t, rows. auto.
Qed.

(** X13: no header and no cell of a row taken from a document still holds
    a tag (a [<] with a [>] after it), and all are trimmed. *)
Theorem docx_cells_without_tags (html : Try jsstring) (r : Row)
  (k v : jsstring) :
  In r (Docx.extractDocxTables html) -> In (k, v) r ->
  hasTag k = false /\ hasTag v = false /\ trimmed k /\ trimmed v.
Proof.
  intros Hr Hkv. apply extractDocxTables_In in Hr.
  destruct Hr as [h [t [rows [_ [_ [Ht Hin]]]]]].
  destruct (tableRows_cells _ _ _ _ Ht Hin Hkv) as [[x ->] [y ->]].
  destruct (clean_spec x), (clean_spec y). auto.
Qed.

Lemma docx_cells_without_tags_witness :
  hasTag (js "A") = false /\ hasTag (js "1 2") = false /\
  trimmed (js "A") /\ trimmed (js "1 2").
Proof.
  apply (@docx_cells_without_tags
           (inr (js "<table><tr><th><b>A</b></th></tr><tr><td> 1 <i>2</i></td></tr></table>"))
           [(js "A", js "1 2")] (js "A") (js "1 2")).
  - vm_compute. left. reflexivity.
  - left. reflexivity.
Defined.

(** X14: every row taken from a document comes from one of the matched
    tables, and the rows of one table all have the same keys: a data row
    whose number of [td] cells differs from the number of header cells is
    left out. *)
Theorem docx_rows_by_table (html : Try jsstring) (r : Row) :
  In r (Docx.extractDocxTables html) ->
  exists h t rows,
    html = inr h /\ In t (Docx.scan Docx.tableMatcher 0 h) /\
    Docx.tableRows t = inr rows /\ In r rows /\ rows_share_keys rows.
Proof.
  intros Hr. apply extractDocxTables_In in Hr.
  destruct Hr as [h [t [rows [Hh [Hin [Ht Hrows]]]]]].
  exists h, t, rows. repeat split; try assumption.
  exact (tableRows_keys _ Ht).
Qed.

Lemma docx_rows_by_table_witness :
  exists h t rows,
    (inr (js "<table><tr><td>A</td></tr><tr><td>1</td></tr><tr><td>2</td><td>3</td></tr></table>")
     : Try jsstring)
    = inr h /\
    In t (Docx.scan Docx.tableMatcher 0 h) /\
    Docx.tableRows t = inr rows /\ In [(js "A", js "1")] rows /\
    rows_share_keys rows.
Proof.
  apply (@docx_rows_by_table
           (inr (js "<table><tr><td>A</td></tr><tr><td>1</td></tr><tr><td>2</td><td>3</td></tr></table>"))
           [(js "A", js "1")]).
  vm_compute. left. reflexivity.
Defined.

(** X15: a document gives at most as many rows as its matched tables
    have [tr] matches after their first; without a table, or when reading
    or converting the file throws, the result is empty. *)
Theorem docx_rows_bounded (h : jsstring) :
  length (Docx.extractDocxTables (inr h))
  <= list_sum (map dataRowCount (Docx.scan Docx.tableMatcher 0 h)) /\
  (Docx.scan Docx.tableMatcher 0 h = [] ->
   Docx.extractDocxTables (inr h) = []) /\
  (forall e, Docx.extractDocxTables (inl e) = []).
Proof.
  split; [|split].
  - unfold Docx.extractDocxTables. cbn [tryBind].
    destruct (Docx.tablesLoop (Docx.scan Docx.tableMatcher 0 h) [])
      as [e|res] eqn:El; cbn [tryCatch]; [simpl; lia|].
    apply tablesLoop_length in El. simpl in El. exact El.
  - intros E. unfold Docx.extractDocxTables. cbn [tryBind].
    now rewrite E.
  - reflexivity.
Qed.

Lemma docx_rows_bounded_witness :
  Docx.scan Docx.tableMatcher 0 (js "<p>No table here</p>") = [] /\
  Docx.extractDocxTables (inr (js "<p>No table here</p>")) = [].
Proof.
  assert (H : Docx.scan Docx.tableMatcher 0 (js "<p>No table here</p>")
              = []) by (vm_compute; reflexivity).
  split; [exact H|].
  exact (proj1 (proj2 (docx_rows_bounded (js "<p>No table here</p>"))) H).
Defined.

(** X16: when the first row of a matched table with at least two rows
    holds a [th] cell with an empty body, building the headers throws and
    the whole result is empty, rows of other tables included. *)
Theorem docx_empty_th_empties_result (h t : jsstring) :
  In t (Docx.scan Docx.tableMatcher 0 h) ->
  2 <= length (Docx.scan Docx.rowMatcher 0 t) ->
  In (Docx.thMatch [])
     (Docx.scan Docx.headerMatcher 0
                (nth 0 (Docx.scan Docx.rowMatcher 0 t) [])) ->
  Docx.extractDocxTables (inr h) = [].
Proof.
  intros Hin Hrows Hth.
  assert (Ht : exists e, Docx.tableRows t = inl e).
  { unfold Docx.tableRows. cbv zeta.
    destruct (Nat.ltb_spec (length (Docx.scan Docx.rowMatcher 0 t)) 2);
      [lia|].
    destruct (Nat.eqb_spec
                (length (Docx.scan Docx.headerMatcher 0
                           (nth 0 (Docx.scan Docx.rowMatcher 0 t) []))) 0)
      as [Hz|_].
    - apply length_zero_iff_nil in Hz. rewrite Hz in Hth. destruct Hth.
    - destruct (headersOf_throws _ Hth) as [e ->]. now exists e. }
  destruct Ht as [e He].
  destruct (tablesLoop_throws _ [] _ Hin He) as [e' El].
  unfold Docx.extractDocxTables. cbn [tryBind]. now rewrite El.
Qed.

Lemma docx_empty_th_empties_result_witness :
  Docx.extractDocxTables
    (inr (js "<table><tr><td>A</td></tr><tr><td>1</td></tr></table><table><tr><th></th></tr><tr><td>2</td></tr></table>"))
  = [].
Proof.
  apply (@docx_empty_th_empties_result
           (js "<table><tr><td>A</td></tr><tr><td>1</td></tr></table><table><tr><th></th></tr><tr><td>2</td></tr></table>")
           (js "<table><tr><th></th></tr><tr><td>2</td></tr></table>")).
  - vm_compute. right. left. reflexivity.
  - vm_compute. lia.
  - vm_compute. left. reflexivity.
Defined.

(* ================================================================== *)
(** ** Cells of the noisy path *)

Lemma headerTokens_cells (d : Pdf.Delimiter) (line t : jsstring) :
  In t (Pdf.headerTokens d line) ->
  t <> [] /\ trimmed t /\
  match d with
  | Pdf.space => True
  | Pdf.comma => ~ In COMMA t
  | Pdf.tab => ~ In TAB t
  end.
Proof.
  intros H. destruct (trimDropEmpty_spec _ _ H) as [Hne Htr].
  split; [exact Hne|]. split; [exact Htr|].
  unfold Pdf.headerTokens, trimDropEmpty in H.
  apply filter_In in H. destruct H as [H _]. apply in_map_iff in H.
  destruct H as [x [<- Hx]].
  destruct d; simpl in *; [exact I| |];
    intros Hin; apply trim_In in Hin; exact (split_on_no_sep _ _ _ Hx Hin).
Qed.

Lemma dataTokens_cells (d : Pdf.Delimiter) (line t : jsstring) :
  In t (Pdf.dataTokens d line) ->
  trimmed t /\
  match d with
  | Pdf.space => t <> []
  | Pdf.comma => ~ In COMMA t
  | Pdf.tab => ~ In TAB t
  end.
Proof.
  destruct d; simpl.
  - intros H. destruct (trimDropEmpty_spec _ _ H). auto.
  - rewrite in_map_iff. intros [x [<- Hx]]. split; [apply trim_trimmed|].
    intros Hin. apply trim_In in Hin. exact (split_on_no_sep _ _ _ Hx Hin).
  - rewrite in_map_iff. intros [x [<- Hx]]. split; [apply trim_trimmed|].
    intros Hin. apply trim_In in Hin. exact (split_on_no_sep _ _ _ Hx Hin).
Qed.

(** X17: in a result of the tolerant extractor every key is a non-empty,
    trimmed header token and every cell is trimmed; under the space-run
    delimiter no cell is empty, and under the comma or the tab no key and
    no cell contains that delimiter. *)
Theorem tolerant_cells_trimmed (lines : list jsstring) (rows : list Row)
  (r : Row) (k v : jsstring) :
  Pdf.approach1 lines = Some rows -> In r rows -> In (k, v) r ->
  k <> [] /\ trimmed k /\ trimmed v /\
  match Pdf.bestDelimiter (Pdf.detectHeader lines) with
  | Pdf.space => v <> []
  | Pdf.comma => ~ In COMMA k /\ ~ In COMMA v
  | Pdf.tab => ~ In TAB k /\ ~ In TAB v
  end.
Proof.
  intros H1 Hr Hkv. rewrite (approach1_rows _ H1) in Hr.
  rewrite dataRows_filterMap in Hr. apply filterMap_In in Hr.
  destruct Hr as [line [_ Hrow]]. unfold Pdf.rowOfLine in Hrow.
  cbv zeta in Hrow.
  destruct (Pdf.accepts _ _); [|discriminate].
  injection Hrow as <-. rewrite Pdf_buildRow_assign in Hkv.
  apply assign_In in Hkv.
  pose proof (in_combine_l _ _ _ _ Hkv) as Hk.
  pose proof (in_combine_r _ _ _ _ Hkv) as Hv.
  unfold Pdf.chosenHeaders in Hk. cbv zeta in Hk.
  apply headerTokens_cells in Hk. apply dataTokens_cells in Hv.
  destruct Hk as [Hk1 [Hk2 Hk3]]. destruct Hv as [Hv1 Hv2].
  destruct (Pdf.bestDelimiter (Pdf.detectHeader lines)); auto.
Qed.

Lemma tolerant_cells_trimmed_witness :
  js "b" <> [] /\ trimmed (js "b") /\ trimmed (js "") /\
  ~ In COMMA (js "b") /\ ~ In COMMA (js "").
Proof.
  apply (@tolerant_cells_trimmed
           [js "a, b ,c"; js "1,,3"]
           [[(js "a", js "1"); (js "b", js ""); (js "c", js "3")]]
           [(js "a", js "1"); (js "b", js ""); (js "c", js "3")]
           (js "b") (js "")).
  - reflexivity.
  - left. reflexivity.
  - right. left. reflexivity.
Defined.

(** X18: every row of the pattern fallback has exactly N entries, N the
    winning word count, at least two, and no cell of it contains a
    whitespace character. *)
Theorem fallback_rows_full (lines : list jsstring) (r : Row) :
  In r (Pdf.fallback lines) ->
  2 <= fst (Pdf.pickMostCommon (Pdf.wordCountMap lines)) /\
  length r = fst (Pdf.pickMostCommon (Pdf.wordCountMap lines)) /\
  forall k v, In (k, v) r -> Forall (fun u => is_ws u = false) v.
Proof.
  intros Hr.
  destruct (Nat.lt_ge_cases
              (snd (Pdf.pickMostCommon (Pdf.wordCountMap lines))) 3)
    as [Hlt|Hge].
  { rewrite fallback_rejected in Hr by exact Hlt. destruct Hr. }
  destruct (fallback_accepted lines Hge) as [E _].
  destruct (pickMostCommon_spec lines) as [_ Hwin].
  destruct (Hwin ltac:(lia)) as [HN _].
  rewrite E, patternRows_filterMap in Hr. apply in_map_iff in Hr.
  destruct Hr as [line [<- Hin]]. apply filter_In in Hin.
  destruct Hin as [_ Hn]. apply Nat.eqb_eq in Hn.
  unfold Pdf.wordCountOf in Hn.
  rewrite patternRow_columns by exact Hn.
  split; [exact HN|]. split.
  - rewrite length_combine, genericHeaders_length, Hn. apply Nat.min_id.
  - intros k v Hkv. apply in_combine_r in Hkv.
    exact (split_runs_no_ws _ _ _ Hkv).
Qed.

Lemma fallback_rows_full_witness :
  length (combine (Pdf.genericHeaders 2) [js "a"; js "b"]) = 2.
Proof.
  exact (proj1 (proj2 (@fallback_rows_full
                         [js "a b"; js "c d"; js "e f"]
                         (combine (Pdf.genericHeaders 2) [js "a"; js "b"])
                         (or_introl eq_refl)))).
Defined.

(* ================================================================== *)
(** ** Status 500 *)

(** X19: when the handler's own steps (reading the form, saving and
    removing the temporary file) succeed, the reply never has status 500,
    whatever the type detection and the sources of the extraction
    throw. *)
Theorem no_500_from_extraction (w : Route.World) (file : bool) :
  Route.formFile w = inr file ->
  Route.saveFile w = inr tt ->
  Route.unlinkFile w = inr tt ->
  forall e, Route.POST w <> Route.reply500 e.
Proof.
  intros Hf Hs Hu e. unfold Route.POST. rewrite Hf, Hs, Hu.
  destruct file; cbn [tryBind tryCatch negb]; [|discriminate].
  cbv zeta.
  destruct (Route.isSupportedTableFormat (Route.mimeTypeOf w));
    cbn [negb tryBind tryCatch]; [|discriminate].
  destruct (Str.startsWith (js "image/") (Route.mimeTypeOf w));
    [discriminate|].
  destruct (Route.extractTableData w (Route.mimeTypeOf w)); discriminate.
Qed.

Lemma no_500_from_extraction_witness :
  Route.POST (Route.mkWorld (inr true) (inr tt)
                (inr (Some (js "application/pdf"))) (inr None) (inr tt)
                (inr []) (inr []) (inl (Exception "bad XRef entry"))
                (inr []) (inr []))
  <> Route.reply500 "Failed to process the file: bad XRef entry".
Proof.
  exact (@no_500_from_extraction
           (Route.mkWorld (inr true) (inr tt)
              (inr (Some (js "application/pdf"))) (inr None) (inr tt)
              (inr []) (inr []) (inl (Exception "bad XRef entry"))
              (inr []) (inr []))
           true eq_refl eq_refl eq_refl
           "Failed to process the file: bad XRef entry").
Defined.
